(** * TabWorker: per-tab controller coordination of the background script

    A shallow embedding of [src/core/background/object/tab-worker.js].

    The worker owns three pieces of mutable state: the sparse array
    [tabControllers], [activeTabId] and [currentTabId].  Every method is
    embedded as a computation in a state-and-exception monad over that
    state, so that a JavaScript exception leaves the state as it was when
    the exception was raised.

    The collaborators of the worker ([Controller], [BrowserAction],
    [Options], [Inject], the browser API) are not part of the file.  What
    they are asked to do is recorded in the state (the context menu) or in
    a log of outbound calls; what they answer is an argument of the
    operation that asks.  A call into a collaborator returns: the errors
    of the model are the ones the worker's own code raises.  A handler
    runs to completion: the interleaving of other events at an [await] is
    not modelled, and a hook a controller calls back is an event of its
    own. *)

From Stdlib Require Import ZArith List String Bool Lia Permutation Sorted.
Import ListNotations.

Set Implicit Arguments.

Local Open Scope string_scope.
Local Open Scope list_scope.
Local Open Scope Z_scope.

(** ** Data model *)

(** Tab identifiers are the integers of the browser API;
    [tabs.TAB_ID_NONE] is its constant [-1]. *)
Definition TabId := Z.

Definition TAB_ID_NONE : TabId := -1.

(** The values of [object/inject-result]. *)
Inductive InjectResult := INJECTED | MATCHED | NO_MATCH.

(** A connector match object; the worker reads [id] and [label]. *)
Record Connector := { id : string; label : string }.

(** JavaScript errors raised by the worker's own code. *)
Inductive JsError :=
| TypeError (message : string).

(** The result of running a method: it returns, or it throws (for an
    async method: its promise is rejected). *)
Inductive Completion (A : Type) :=
| Normal (a : A)
| Throw (e : JsError).

Arguments Normal {A} a.
Arguments Throw {A} e.

(** [i18n.getMessage(titleId, label)]: the title of a menu item is kept as
    the message id and its substitution. *)
Record Title := { titleId : string; titleLabel : string }.

(** What the click handler given to [addContextMenuItem] captures.  The
    captured controller object is named by the tab and the connector it
    was constructed with. *)
Inductive MenuAction :=
| ToggleConnector (ctrlTab : TabId) (ctrlConnector : Connector) (newState : bool)
| DisableUntilTabClosed (ctrlTab : TabId) (ctrlConnector : Connector).

(** An item of the browser action's context menu: [itemTab] is the tab
    whose menu the click handler rebuilds. *)
Record MenuItem := {
  itemTab : TabId;
  itemTitle : Title;
  itemAction : MenuAction
}.

Definition isToggleItem (item : MenuItem) : bool :=
  match itemAction item with
  | ToggleConnector _ _ _ => true
  | DisableUntilTabClosed _ _ => false
  end.

Section TabWorker.

(** The modes of [object/controller-mode] and its two classifiers: the
    module is not among the sources, so all three are parameters. *)
Variable Mode : Type.
Variable isActiveMode : Mode -> bool.
Variable isInactiveMode : Mode -> bool.

(** The song object of a controller, as far as the worker hands it on. *)
Variable Song : Type.

(** Values that cross the message boundary. *)
Inductive Value :=
| Undefined
| Bool (b : bool)
| Number (n : Z)
| Str (s : string)
| SongData (song : Song).

(** The [data] object of a message: its properties by name. *)
Definition Data := list (string * Value).

Fixpoint getProperty (name : string) (data : Data) : Value :=
  match data with
  | [] => Undefined
  | (k, v) :: rest => if String.eqb k name then v else getProperty name rest
  end.

(** [data.isLoved] *)
Definition isLoved (data : Data) : Value := getProperty "isLoved" data.

(** Modelled from the spec: the [Controller] of [object/controller], a
    per-tab state machine exposing mode, enabled flag and current song.
    These are the fields the worker reads.  [tabId] and [connector] are
    the constructor's arguments; [ctrl.getMode()] and [ctrl.mode] both
    read [mode], [ctrl.getConnector()] reads [connector],
    [ctrl.getCurrentSong()] reads [currentSong]. *)
Record Controller := {
  tabId : TabId;
  connector : Connector;
  isEnabled : bool;
  mode : Mode;
  currentSong : Song
}.

(** The methods of a controller the worker calls for their effect. *)
Inductive ControllerCall :=
| ToggleLove (flag : Value)
| SetUserSongData (data : Data)
| SkipCurrentSong
| ResetSongData
| OnStateChanged (data : Data)
| SetEnabled (flag : bool).

(** What a call does to the mode, the enabled flag and the song of the
    controller object is the controller's own business, and a parameter
    here.  The hook the controller may call back when its mode has
    changed is not part of the call: see [onModeChanged]. *)
Variable react : ControllerCall -> Controller -> Controller.

(** The mode and the song a freshly constructed controller starts with. *)
Variable initialMode : bool -> Mode.
Variable noSong : Song.

(** A call cannot rebind the tab or the connector of the object. *)
Definition afterCall (call : ControllerCall) (ctrl : Controller) : Controller :=
  let ctrl' := react call ctrl in
  {| tabId := tabId ctrl;
     connector := connector ctrl;
     isEnabled := isEnabled ctrl';
     mode := mode ctrl';
     currentSong := currentSong ctrl' |}.

(** Modelled from the spec: [new Controller(tabId, connector, isEnabled)]
    of [object/controller] keeps its three arguments; the mode and the
    song it starts with are parameters. *)
Definition newController (t : TabId) (c : Connector) (enabled : bool) : Controller :=
  {| tabId := t;
     connector := c;
     isEnabled := enabled;
     mode := initialMode enabled;
     currentSong := noSong |}.

(** Outbound calls to collaborators, in the order they are made. *)
Inductive Effect :=
| ConsoleWarn (type : string) (t : TabId)
| BrowserActionReset
| BrowserActionUpdate (ctrl : Controller)
| BrowserActionSetSongLoved (flag : bool) (song : Song)
| OptionsSetConnectorEnabled (c : Connector) (flag : bool)
| ControllerFinish (ctrl : Controller)
| TabsSendMessage (t : TabId) (type : string)
| ConnectorActivated (c : Connector).

(** ** The sparse array [tabControllers]

    The entries are kept in the order [for ... in] visits them: array
    indices in ascending order first, every other key after them in the
    order of creation. *)
Definition Controllers := list (TabId * Controller).

Definition isArrayIndex (k : TabId) : bool := (0 <=? k) && (k <? 4294967295).

(** [tabControllers[t]]: [None] stands for [undefined]. *)
Fixpoint lookup (t : TabId) (l : Controllers) : option Controller :=
  match l with
  | [] => None
  | (k, c) :: rest => if k =? t then Some c else lookup t rest
  end.

Fixpoint replaceEntry (t : TabId) (c : Controller) (l : Controllers) : Controllers :=
  match l with
  | [] => []
  | (k, c') :: rest =>
      if k =? t then (t, c) :: rest else (k, c') :: replaceEntry t c rest
  end.

Fixpoint insertIndex (t : TabId) (c : Controller) (l : Controllers) : Controllers :=
  match l with
  | [] => [(t, c)]
  | (k, c') :: rest =>
      if isArrayIndex k && (k <? t)
      then (k, c') :: insertIndex t c rest
      else (t, c) :: l
  end.

(** [tabControllers[t] = c] *)
Definition store (t : TabId) (c : Controller) (l : Controllers) : Controllers :=
  match lookup t l with
  | Some _ => replaceEntry t c l
  | None => if isArrayIndex t then insertIndex t c l else l ++ [(t, c)]
  end.

(** [delete tabControllers[t]] *)
Definition remove (t : TabId) (l : Controllers) : Controllers :=
  filter (fun entry => negb (fst entry =? t)) l.

(** ** Worker state *)

Record Worker := {
  currentTabId : TabId;
  activeTabId : TabId;
  tabControllers : Controllers;
  contextMenu : list MenuItem;
  effects : list Effect
}.

Definition setCurrentTabId (t : TabId) (w : Worker) : Worker :=
  {| currentTabId := t;
     activeTabId := activeTabId w;
     tabControllers := tabControllers w;
     contextMenu := contextMenu w;
     effects := effects w |}.

Definition setActiveTabId (t : TabId) (w : Worker) : Worker :=
  {| currentTabId := currentTabId w;
     activeTabId := t;
     tabControllers := tabControllers w;
     contextMenu := contextMenu w;
     effects := effects w |}.

Definition setTabControllers (l : Controllers) (w : Worker) : Worker :=
  {| currentTabId := currentTabId w;
     activeTabId := activeTabId w;
     tabControllers := l;
     contextMenu := contextMenu w;
     effects := effects w |}.

Definition setContextMenu (m : list MenuItem) (w : Worker) : Worker :=
  {| currentTabId := currentTabId w;
     activeTabId := activeTabId w;
     tabControllers := tabControllers w;
     contextMenu := m;
     effects := effects w |}.

Definition addEffect (e : Effect) (w : Worker) : Worker :=
  {| currentTabId := currentTabId w;
     activeTabId := activeTabId w;
     tabControllers := tabControllers w;
     contextMenu := contextMenu w;
     effects := effects w ++ [e] |}.

(** ** The monad of methods *)

Definition M (A : Type) := Worker -> Completion A * Worker.

Definition ret {A} (a : A) : M A := fun w => (Normal a, w).

Definition bind {A B} (m : M A) (k : A -> M B) : M B :=
  fun w =>
    match m w with
    | (Normal a, w') => k a w'
    | (Throw e, w') => (Throw e, w')
    end.

Definition throw {A} (e : JsError) : M A := fun w => (Throw e, w).

Definition get : M Worker := fun w => (Normal w, w).

Definition modify (f : Worker -> Worker) : M unit := fun w => (Normal tt, f w).

(** Calling an async method without awaiting it: its rejection reaches
    nobody. *)
Definition notAwaited {A} (m : M A) : M unit :=
  fun w => (Normal tt, snd (m w)).

Notation "x <- m ;; k" := (bind m (fun x => k))
  (at level 61, m at next level, right associativity).
Notation "m ;; k" := (bind m (fun _ => k))
  (at level 61, right associativity).

Definition emit (e : Effect) : M unit := modify (addEffect e).

(** The state a method leaves behind, and what it completes with. *)
Definition exec {A} (m : M A) (w : Worker) : Worker := snd (m w).
Definition result {A} (m : M A) (w : Worker) : Completion A := fst (m w).

(** A call on the controller object stored for tab [t]. *)
Definition callController (t : TabId) (call : ControllerCall) : M unit :=
  w <- get ;;
  match lookup t (tabControllers w) with
  | Some ctrl => modify (setTabControllers (replaceEntry t (afterCall call ctrl) (tabControllers w)))
  | None => ret tt
  end.

(** ** Private methods *)

(** [initialize()]; [currentTab] is the answer of [getCurrentTab()], which
    is missing in some cases on startup. *)
Definition initialize (currentTab : option TabId) : Worker :=
  {| currentTabId := match currentTab with
                     | Some t => t
                     | None => TAB_ID_NONE
                     end;
     activeTabId := TAB_ID_NONE;
     tabControllers := [];
     contextMenu := [];
     effects := [BrowserActionReset] |}.

Definition updateBrowserAction (t : TabId) : M unit :=
  w <- get ;;
  match lookup t (tabControllers w) with
  | Some ctrl => emit (BrowserActionUpdate ctrl)
  | None => emit BrowserActionReset
  end.

Definition shouldUpdateBrowserAction (t : TabId) (w : Worker) : bool :=
  let activeCtrl := lookup (activeTabId w) (tabControllers w) in
  if match activeCtrl with
     | Some a => isActiveMode (mode a)
     | None => false
     end
  then false
  else
    match lookup t (tabControllers w) with
    | Some ctrl =>
        if negb (t =? currentTabId w) && isInactiveMode (mode ctrl)
        then false
        else true
    | None => true
    end.

(** The [for ... in] loop of [findActiveTabId]: the first entry in
    enumeration order whose mode is active. *)
Definition firstActive (l : Controllers) : option (TabId * Controller) :=
  find (fun entry => isActiveMode (mode (snd entry))) l.

Definition findActiveTabId (w : Worker) : TabId :=
  let ctrl := lookup (currentTabId w) (tabControllers w) in
  if match ctrl with
     | Some c => isActiveMode (mode c)
     | None => false
     end
  then currentTabId w
  else
    match firstActive (tabControllers w) with
    | Some (_, c) => tabId c
    | None =>
        match ctrl with
        | Some _ => currentTabId w
        | None => TAB_ID_NONE
        end
    end.

(** [contextMenus.removeAll()] *)
Definition resetContextMenu : M unit := modify (setContextMenu []).

(** [contextMenus.create(...)] with the click handler [onClicked]. *)
Definition addContextMenuItem (t : TabId) (title : Title) (onClicked : MenuAction) : M unit :=
  modify (fun w =>
    setContextMenu
      (contextMenu w ++ [{| itemTab := t; itemTitle := title; itemAction := onClicked |}]) w).

(** [ctrl] is [None] when the caller passes [undefined]: reading
    [ctrl.getConnector] then throws. *)
Definition addToggleConnectorMenu (t : TabId) (ctrl : option Controller) : M unit :=
  match ctrl with
  | None => throw (TypeError "Cannot read property 'getConnector' of undefined")
  | Some c =>
      let label := label (connector c) in
      let titleId :=
        if isEnabled c then "menuDisableConnector" else "menuEnableConnector" in
      let newState := negb (isEnabled c) in
      addContextMenuItem t {| titleId := titleId; titleLabel := label |}
        (ToggleConnector (tabId c) (connector c) newState)
  end.

Definition addDisableUntilTabClosedItem (t : TabId) (ctrl : Controller) : M unit :=
  let label := label (connector ctrl) in
  addContextMenuItem t
    {| titleId := "menuDisableUntilTabClosed"; titleLabel := label |}
    (DisableUntilTabClosed (tabId ctrl) (connector ctrl)).

Definition updateContextMenu (t : TabId) : M unit :=
  resetContextMenu ;;
  w <- get ;;
  let ctrl := lookup t (tabControllers w) in
  let activeCtrl := lookup (activeTabId w) (tabControllers w) in
  match ctrl with
  | Some c =>
      addToggleConnectorMenu t (Some c) ;;
      if isEnabled c then addDisableUntilTabClosedItem t c else ret tt
  | None => ret tt
  end ;;
  if negb (activeTabId w =? t)
  then
    if match ctrl, activeCtrl with
       | Some c, Some a => String.eqb (id (connector a)) (id (connector c))
       | _, _ => false
       end
    then ret tt
    else addToggleConnectorMenu t activeCtrl
  else ret tt.

Definition updateLastActiveTab : M unit :=
  w <- get ;;
  let lastActiveTabId := findActiveTabId w in
  if negb (lastActiveTabId =? TAB_ID_NONE)
  then
    modify (setActiveTabId lastActiveTabId) ;;
    updateBrowserAction lastActiveTabId ;;
    updateContextMenu lastActiveTabId
  else
    emit BrowserActionReset ;;
    resetContextMenu.

Definition processControlleModeChange (ctrl : Controller) (t : TabId) : M unit :=
  let isCtrlModeInactive := isInactiveMode (mode ctrl) in
  w <- get ;;
  if negb (activeTabId w =? t) && isCtrlModeInactive
  then ret tt
  else
    let isActiveCtrlChanged := negb (activeTabId w =? t) in
    (if isActiveCtrlChanged then modify (setActiveTabId t) else ret tt) ;;
    (if isActiveCtrlChanged then updateContextMenu (currentTabId w) else ret tt) ;;
    if isCtrlModeInactive
    then updateBrowserAction (currentTabId w)
    else updateBrowserAction t.

(** [enabled] is the answer of [Options.isConnectorEnabled(connector)].
    The hook [onModeChanged] set here is [onModeChanged] below; the hooks
    [onSongUpdated] and [onControllerEvent] only notify other modules. *)
Definition createController (t : TabId) (c : Connector) (enabled : bool) : M unit :=
  modify (fun w => setTabControllers (store t (newController t c enabled) (tabControllers w)) w).

Definition unloadController (t : TabId) : M unit :=
  w <- get ;;
  match lookup t (tabControllers w) with
  | None => ret tt
  | Some controller =>
      emit (ControllerFinish controller) ;;
      modify (fun w' => setTabControllers (remove t (tabControllers w')) w')
  end.

Definition setConnectorState (t : TabId) (c : Connector) (flag : bool) : M unit :=
  callController t (SetEnabled flag) ;;
  emit (OptionsSetConnectorEnabled c flag).

(** The class has no method of this name (the one it defines is
    [setConnectorState]): [this.setControllerState] is [undefined] and
    calling it throws. *)
Definition setControllerState (ctrl : Controller) (flag : bool) : M unit :=
  throw (TypeError "this.setControllerState is not a function").

(** [result] is the answer of [Inject.injectConnector(tabId, connector)],
    [enabled] the one of [Options.isConnectorEnabled(connector)]. *)
Definition tryToInjectConnector (t : TabId) (c : Connector)
    (result : InjectResult) (enabled : bool) : M unit :=
  match result with
  | INJECTED => ret tt
  | NO_MATCH =>
      w <- get ;;
      match lookup t (tabControllers w) with
      | Some _ =>
          notAwaited (unloadController t) ;;
          updateLastActiveTab
      | None => ret tt
      end
  | MATCHED =>
      notAwaited (unloadController t) ;;
      createController t c enabled ;;
      w <- get ;;
      (if shouldUpdateBrowserAction t w then updateBrowserAction t else ret tt) ;;
      updateContextMenu t ;;
      emit (TabsSendMessage t "EVENT_READY") ;;
      emit (ConnectorActivated c)
  end.

(** ** Public methods *)

Definition processCommand (command : string) : M unit :=
  w <- get ;;
  let target :=
    match lookup (activeTabId w) (tabControllers w) with
    | Some ctrl => Some (activeTabId w, ctrl)
    | None =>
        match lookup (currentTabId w) (tabControllers w) with
        | Some ctrl => Some (currentTabId w, ctrl)
        | None => None
        end
    end in
  match target with
  | None => ret tt
  | Some (t, ctrl) =>
      if String.eqb command "toggle-connector"
      then setControllerState ctrl (negb (isEnabled ctrl))
      else if String.eqb command "love-song" || String.eqb command "unlove-song"
      then
        let flag := String.eqb command "love-song" in
        callController t (ToggleLove (Bool flag)) ;;
        emit (BrowserActionSetSongLoved flag
                (currentSong (afterCall (ToggleLove (Bool flag)) ctrl)))
      else ret tt
  end.

Definition processMessage (t : TabId) (type : string) (data : Data) : M Value :=
  if String.eqb type "REQUEST_ACTIVE_TABID"
  then w <- get ;; ret (Number (activeTabId w))
  else
    w <- get ;;
    match lookup t (tabControllers w) with
    | None => emit (ConsoleWarn type t) ;; ret Undefined
    | Some ctrl =>
        if String.eqb type "REQUEST_GET_SONG"
        then ret (SongData (currentSong ctrl))
        else if String.eqb type "REQUEST_CORRECT_SONG"
        then callController t (SetUserSongData data) ;; ret Undefined
        else if String.eqb type "REQUEST_TOGGLE_LOVE"
        then callController t (ToggleLove (isLoved data)) ;; ret (isLoved data)
        else if String.eqb type "REQUEST_SKIP_SONG"
        then callController t SkipCurrentSong ;; ret Undefined
        else if String.eqb type "REQUEST_RESET_SONG"
        then callController t ResetSongData ;; ret Undefined
        else ret Undefined
    end.

Definition processPortMessage (t : TabId) (type : string) (data : Data) : M unit :=
  if String.eqb type "EVENT_STATE_CHANGED"
  then
    w <- get ;;
    match lookup t (tabControllers w) with
    | Some _ => callController t (OnStateChanged data)
    | None => ret tt
    end
  else ret tt.

(** [c] is the answer of [getConnectorByUrl(url)]; the injection is
    started and not awaited. *)
Definition processTabUpdate (t : TabId) (c : Connector)
    (result : InjectResult) (enabled : bool) : M unit :=
  notAwaited (tryToInjectConnector t c result enabled).

Definition processTabChange (t : TabId) : M unit :=
  modify (setCurrentTabId t) ;;
  w <- get ;;
  (if shouldUpdateBrowserAction t w
   then updateBrowserAction t ;; modify (setActiveTabId t)
   else ret tt) ;;
  updateContextMenu t.

Definition processTabRemove (removedTabId : TabId) : M unit :=
  notAwaited (unloadController removedTabId) ;;
  w <- get ;;
  if removedTabId =? activeTabId w
  then
    modify (setActiveTabId TAB_ID_NONE) ;;
    updateLastActiveTab
  else ret tt.

(** Modelled from the spec: the [Controller] of [object/controller]
    calls its hook when its mode flips.  The controller stored for tab
    [t] has changed its mode to [m] and calls [ctrl.onModeChanged], which
    [createController] has set to [processControlleModeChange(ctrl, t)].
    The hooks of controllers that are no longer stored are not
    modelled. *)
Definition onModeChanged (t : TabId) (m : Mode) : M unit :=
  w <- get ;;
  match lookup t (tabControllers w) with
  | Some ctrl =>
      let ctrl' :=
        {| tabId := tabId ctrl;
           connector := connector ctrl;
           isEnabled := isEnabled ctrl;
           mode := m;
           currentSong := currentSong ctrl |} in
      modify (setTabControllers (replaceEntry t ctrl' (tabControllers w))) ;;
      processControlleModeChange ctrl' t
  | None => ret tt
  end.

(** ** Histories of the worker *)

(** The events the worker is driven by, each with the answers of the
    collaborators it asks. *)
Inductive Operation :=
| TabUpdate (t : TabId) (c : Connector) (result : InjectResult) (enabled : bool)
| TabChange (t : TabId)
| TabRemove (t : TabId)
| Command (command : string)
| Message (t : TabId) (type : string) (data : Data)
| PortMessage (t : TabId) (type : string) (data : Data)
| ModeChange (t : TabId) (m : Mode).

Definition perform (op : Operation) : M unit :=
  match op with
  | TabUpdate t c result enabled => processTabUpdate t c result enabled
  | TabChange t => processTabChange t
  | TabRemove t => processTabRemove t
  | Command command => processCommand command
  | Message t type data => processMessage t type data ;; ret tt
  | PortMessage t type data => processPortMessage t type data
  | ModeChange t m => onModeChanged t m
  end.

(** The state after a list of events, each handled to completion; a
    handler that throws leaves the state it had reached. *)
Definition performAll (ops : list Operation) (w : Worker) : Worker :=
  fold_left (fun w' op => exec (perform op) w') ops w.

Inductive reachable : Worker -> Prop :=
| reachable_initialize (currentTab : option TabId) :
    reachable (initialize currentTab)
| reachable_perform (w : Worker) (op : Operation) :
    reachable w -> reachable (exec (perform op) w).

(** ** Predicates on states *)

(** Every entry of the array holds the controller constructed for its
    own tab, and no tab has two entries. *)
Definition wellFormed (l : Controllers) : Prop :=
  NoDup (map fst l) /\ forall k c, In (k, c) l -> tabId c = k.

(** The item [addToggleConnectorMenu] creates for a controller. *)
Definition toggleItem (t : TabId) (c : Controller) : MenuItem :=
  {| itemTab := t;
     itemTitle :=
       {| titleId := if isEnabled c then "menuDisableConnector" else "menuEnableConnector";
          titleLabel := label (connector c) |};
     itemAction := ToggleConnector (tabId c) (connector c) (negb (isEnabled c)) |}.

(** The item [addDisableUntilTabClosedItem] creates for a controller. *)
Definition disableUntilTabClosedItem (t : TabId) (c : Controller) : MenuItem :=
  {| itemTab := t;
     itemTitle :=
       {| titleId := "menuDisableUntilTabClosed"; titleLabel := label (connector c) |};
     itemAction := DisableUntilTabClosed (tabId c) (connector c) |}.

(** The items [updateContextMenu] adds for the tab itself. *)
Definition ownItems (t : TabId) (ctrl : option Controller) : list MenuItem :=
  match ctrl with
  | Some c =>
      toggleItem t c ::
      (if isEnabled c then [disableUntilTabClosedItem t c] else [])
  | None => []
  end.



(** The election of the active tab, in the words of the design: the
    current tab if its controller is in an active mode; else some tab
    whose controller is; else the current tab if it has a controller;
    else no tab. *)
Definition noneActive (l : Controllers) : Prop :=
  forall t c, lookup t l = Some c -> isActiveMode (mode c) = false.

Inductive elected (w : Worker) : TabId -> Prop :=
| elected_current c :
    lookup (currentTabId w) (tabControllers w) = Some c ->
    isActiveMode (mode c) = true ->
    elected w (currentTabId w)
| elected_other t c :
    (forall c', lookup (currentTabId w) (tabControllers w) = Some c' ->
                isActiveMode (mode c') = false) ->
    lookup t (tabControllers w) = Some c ->
    isActiveMode (mode c) = true ->
    elected w t
| elected_fallback c :
    noneActive (tabControllers w) ->
    lookup (currentTabId w) (tabControllers w) = Some c ->
    elected w (currentTabId w)
| elected_none :
    noneActive (tabControllers w) ->
    lookup (currentTabId w) (tabControllers w) = None ->
    elected w TAB_ID_NONE.

(** ** The click handlers of the menu items *)

(** The handler [onClicked] an item is created with: the toggle item
    calls [this.setConnectorState(ctrl, newState)], the other item
    [ctrl.setEnabled(false)].  [stored] tells whether the controller
    object the handler has captured is still the one stored for its tab;
    a call on an object that has been unloaded does not reach the state
    of the worker. *)
Definition onClicked (action : MenuAction) (stored : bool) : M unit :=
  match action with
  | ToggleConnector ctrlTab ctrlConnector newState =>
      if stored
      then setConnectorState ctrlTab ctrlConnector newState
      else emit (OptionsSetConnectorEnabled ctrlConnector newState)
  | DisableUntilTabClosed ctrlTab _ =>
      if stored then callController ctrlTab (SetEnabled false) else ret tt
  end.

(** The handler [onclick] that [addContextMenuItem] hands to
    [contextMenus.create]. *)
Definition onclick (item : MenuItem) (stored : bool) : M unit :=
  onClicked (itemAction item) stored ;;
  updateContextMenu (itemTab item) ;;
  w <- get ;;
  if shouldUpdateBrowserAction (itemTab item) w
  then updateBrowserAction (itemTab item)
  else ret tt.

(** ** Relations between the state before and after a method *)

(** A method relates every state to the state it leaves, whether it
    returns or throws. *)
Definition preserves {A} (R : Worker -> Worker -> Prop) (m : M A) : Prop :=
  forall w, R w (snd (m w)).

(** The current tab is the same. *)
Definition sameCurrentTab (w w' : Worker) : Prop :=
  currentTabId w' = currentTabId w.

(** The same tabs have a controller, in the same order. *)
Definition sameKeys (w w' : Worker) : Prop :=
  map fst (tabControllers w') = map fst (tabControllers w).

(** A relation that holds whenever the current tab and the tabs with a
    controller are the same. *)
Definition tabsRelation (R : Worker -> Worker -> Prop) : Prop :=
  forall w w',
    currentTabId w' = currentTabId w ->
    map fst (tabControllers w') = map fst (tabControllers w) ->
    R w w'.

(** The [TypeError] of [addToggleConnectorMenu] for a missing controller. *)
Definition noControllerError : JsError :=
  TypeError "Cannot read property 'getConnector' of undefined".

(** The events that are no injection and no removal of a tab. *)
Definition keepsTabs (op : Operation) : bool :=
  match op with
  | TabUpdate _ _ _ _ => false
  | TabRemove _ => false
  | _ => true
  end.

(** The events other than a change of the current tab. *)
Definition isTabChange (op : Operation) : bool :=
  match op with
  | TabChange _ => true
  | _ => false
  end.

(** ** The order of enumeration *)



(** ** Invariants of methods *)

(** A method keeps a property of the state, whether it returns or
    throws. *)
Definition keeps {A} (P : Worker -> Prop) (m : M A) : Prop :=
  forall w, P w -> P (snd (m w)).

(** The menu is the menu of one tab, of at most three items. *)
Definition menuOfOneTab (w : Worker) : Prop :=
  (exists t, Forall (fun item => itemTab item = t) (contextMenu w)) /\
  (List.length (contextMenu w) <= 3)%nat.

End TabWorker.

Arguments Undefined {Song}.
Arguments Bool {Song} b.
Arguments Number {Song} n.
Arguments Str {Song} s.
Arguments SkipCurrentSong {Song}.
Arguments ResetSongData {Song}.
Arguments SetEnabled {Song} flag.
Arguments ConsoleWarn {Mode Song} type t.
Arguments BrowserActionReset {Mode Song}.
Arguments OptionsSetConnectorEnabled {Mode Song} c flag.
Arguments TabsSendMessage {Mode Song} t type.
Arguments ConnectorActivated {Mode Song} c.
Arguments initialize {Mode Song} currentTab.
Arguments TabUpdate {Mode Song} t c result enabled.
Arguments TabChange {Mode Song} t.
Arguments TabRemove {Mode Song} t.
Arguments Command {Mode Song} command.
Arguments Message {Mode Song} t type data.
Arguments PortMessage {Mode Song} t type data.
Arguments ModeChange {Mode Song} t m.

(** ** A sample instance, for examples *)

(** A three-mode controller: only [Playing] is an active mode. *)
Inductive PlayerMode := Base | Playing | Disabled.

Definition playerIsActive (m : PlayerMode) : bool :=
  match m with
  | Playing => true
  | _ => false
  end.

Definition playerIsInactive (m : PlayerMode) : bool := negb (playerIsActive m).

Definition playerInitialMode (enabled : bool) : PlayerMode :=
  if enabled then Base else Disabled.

(** A controller whose only visible reaction is to [setEnabled]. *)
Definition playerReact (call : ControllerCall string)
    (ctrl : Controller PlayerMode string) : Controller PlayerMode string :=
  match call with
  | SetEnabled flag =>
      {| tabId := tabId ctrl;
         connector := connector ctrl;
         isEnabled := flag;
         mode := if flag then Base else Disabled;
         currentSong := currentSong ctrl |}
  | _ => ctrl
  end.

Definition youtube : Connector := {| id := "youtube"; label := "YouTube" |}.
Definition wfmu : Connector := {| id := "wfmu"; label := "WFMU" |}.

Definition playerOn (t : TabId) (c : Connector) (m : PlayerMode)
  : Controller PlayerMode string :=
  {| tabId := t; connector := c; isEnabled := true; mode := m; currentSong := "song" |}.

(** Tab 1 plays and owns the browser action; the user looks at tab 2. *)
Definition playingInBackground : Worker PlayerMode string :=
  {| currentTabId := 2;
     activeTabId := 1;
     tabControllers := [(1, playerOn 1 youtube Playing)];
     contextMenu := [];
     effects := [] |}.

(** The user opens a player in tab 1, the song starts, the user moves on
    to tab 2, and the song ends. *)
Definition songEndsInBackground : list (Operation PlayerMode string) :=
  [TabChange 1;
   TabUpdate 1 youtube MATCHED true;
   ModeChange 1 Playing;
   TabChange 2;
   ModeChange 1 Base].

(** The user opens a player in tab 1. *)
Definition playerOpens : list (Operation PlayerMode string) :=
  [TabChange 1; TabUpdate 1 youtube MATCHED true].


Definition playerReachable : Worker PlayerMode string -> Prop :=
  reachable playerIsActive playerIsInactive playerReact playerInitialMode "".

Definition playerPerformAll
  : list (Operation PlayerMode string) -> Worker PlayerMode string -> Worker PlayerMode string :=
  performAll playerIsActive playerIsInactive playerReact playerInitialMode "".

(** The state after [playerOpens]: tab 1 is the current and the active
    tab, and its controller is enabled. *)
Definition playerOpened : Worker PlayerMode string :=
  playerPerformAll playerOpens (initialize (Some 2)).

(** Tabs 1 and 3 run the same connector; tab 1 plays, tab 3 is paused. *)
Definition sameConnectorTwice : Worker PlayerMode string :=
  {| currentTabId := 3;
     activeTabId := 1;
     tabControllers := [(1, playerOn 1 youtube Playing); (3, playerOn 3 youtube Base)];
     contextMenu := [];
     effects := [] |}.

(** Tab 1 plays one connector, tab 3 has another one. *)
Definition differentConnectors : Worker PlayerMode string :=
  {| currentTabId := 3;
     activeTabId := 1;
     tabControllers := [(1, playerOn 1 youtube Playing); (3, playerOn 3 wfmu Base)];
     contextMenu := [];
     effects := [] |}.

(** * Properties *)

Section Properties.

Variable Mode : Type.
Variable isActiveMode : Mode -> bool.
Variable isInactiveMode : Mode -> bool.
Variable Song : Type.
Variable react : ControllerCall Song -> Controller Mode Song -> Controller Mode Song.
Variable initialMode : bool -> Mode.
Variable noSong : Song.

Implicit Types (w : Worker Mode Song) (l : Controllers Mode Song)
  (c ctrl : Controller Mode Song) (t : TabId).

(** ** The controller array *)

Lemma lookup_remove_same t l : lookup t (remove t l) = None.
Proof.
  induction l as [| [k c] rest IH]; simpl; trivial.
  destruct (k =? t) eqn:E; simpl; trivial.
  now rewrite E.
Qed.

Lemma lookup_remove_other t t' l :
  t <> t' -> lookup t' (remove t l) = lookup t' l.
Proof.
  intros Hne.
  induction l as [| [k c] rest IH]; simpl; trivial.
  destruct (k =? t) eqn:E; simpl.
  - apply Z.eqb_eq in E. subst k.
    destruct (t =? t') eqn:E'; trivial.
    apply Z.eqb_eq in E'. contradiction.
  - now rewrite IH.
Qed.

Lemma remove_absent t l : lookup t l = None -> remove t l = l.
Proof.
  induction l as [| [k c] rest IH]; simpl; trivial.
  destruct (k =? t); simpl; [discriminate |].
  intros H. now rewrite IH.
Qed.

Lemma lookup_In t l c : lookup t l = Some c -> In (t, c) l.
Proof.
  induction l as [| [k c'] rest IH]; simpl; [discriminate |].
  destruct (k =? t) eqn:E.
  - intros [= ->]. apply Z.eqb_eq in E. subst. now left.
  - intros H. right. now apply IH.
Qed.

Lemma In_remove t k c l : In (k, c) (remove t l) -> In (k, c) l /\ k <> t.
Proof.
  unfold remove. rewrite filter_In. simpl.
  intros [Hin Hk]. split; trivial.
  intros ->. now rewrite Z.eqb_refl in Hk.
Qed.

Lemma lookup_replaceEntry t t' c l :
  lookup t' (replaceEntry t c l) =
  if t =? t' then match lookup t l with Some _ => Some c | None => None end
  else lookup t' l.
Proof.
  induction l as [| [k c'] rest IH]; simpl.
  - now destruct (t =? t').
  - destruct (k =? t) eqn:E; simpl.
    + apply Z.eqb_eq in E. subst k.
      destruct (t =? t'); trivial.
    + destruct (k =? t') eqn:E'; simpl.
      * apply Z.eqb_eq in E'. subst k.
        rewrite Z.eqb_sym, E. trivial.
      * apply IH.
Qed.

(** ** Running the helpers *)

(** Unfolds the rebuild of the menu down to matches on the two
    controllers it looks up. *)
Ltac unfold_menu :=
  unfold updateContextMenu, resetContextMenu, addToggleConnectorMenu,
    addDisableUntilTabClosedItem, addContextMenuItem, bind, get, modify, ret, throw;
  simpl.

Lemma updateBrowserAction_run t w :
  updateBrowserAction t w =
  (Normal tt,
   addEffect (match lookup t (tabControllers w) with
              | Some ctrl => BrowserActionUpdate ctrl
              | None => BrowserActionReset
              end) w).
Proof.
  unfold updateBrowserAction, bind, get, emit, modify.
  now destruct (lookup t (tabControllers w)).
Qed.

(** [updateContextMenu] touches nothing but the menu, also when it
    throws. *)
Lemma updateContextMenu_frame t w :
  exists r m, updateContextMenu t w = (r, setContextMenu m w).
Proof.
  unfold_menu.
  destruct (lookup t (tabControllers w)) as [c |];
    destruct (lookup (activeTabId w) (tabControllers w)) as [a |];
    destruct (negb (activeTabId w =? t));
    try destruct (isEnabled c);
    try destruct (String.eqb (id (connector a)) (id (connector c)));
    simpl; eexists; eexists; reflexivity.
Qed.

(** When the tab is the active one, the menu holds the tab's own items. *)
Lemma updateContextMenu_active t w :
  activeTabId w = t ->
  updateContextMenu t w =
  (Normal tt, setContextMenu (ownItems t (lookup t (tabControllers w))) w).
Proof.
  intros <-.
  unfold_menu. rewrite Z.eqb_refl. simpl.
  unfold ownItems, toggleItem, disableUntilTabClosedItem, setContextMenu.
  destruct (lookup (activeTabId w) (tabControllers w)) as [c |]; simpl; trivial.
  destruct (isEnabled c); reflexivity.
Qed.

(** When the active tab has a controller, [updateContextMenu] returns. *)
Lemma updateContextMenu_with_active t w a :
  lookup (activeTabId w) (tabControllers w) = Some a ->
  exists m, updateContextMenu t w = (Normal tt, setContextMenu m w).
Proof.
  intros Ha.
  unfold_menu. rewrite Ha.
  destruct (lookup t (tabControllers w)) as [c |];
    destruct (negb (activeTabId w =? t));
    try destruct (isEnabled c);
    try destruct (String.eqb (id (connector a)) (id (connector c)));
    simpl; eexists; reflexivity.
Qed.

Lemma unloadController_run t w :
  notAwaited (unloadController t) w =
  (Normal tt,
   match lookup t (tabControllers w) with
   | Some ctrl =>
       setTabControllers (remove t (tabControllers w)) (addEffect (ControllerFinish ctrl) w)
   | None => w
   end).
Proof.
  unfold notAwaited, unloadController, bind, get, emit, modify, ret.
  now destruct (lookup t (tabControllers w)).
Qed.

(** ** The election *)

Lemma In_lookup l k c :
  NoDup (map fst l) -> In (k, c) l -> lookup k l = Some c.
Proof.
  induction l as [| [k' c'] rest IH]; simpl; [contradiction |].
  intros Hnd [Heq | Hin].
  - injection Heq as -> ->. now rewrite Z.eqb_refl.
  - inversion Hnd as [| ? ? Hnotin Hnd']; subst.
    destruct (k' =? k) eqn:E.
    + apply Z.eqb_eq in E. subst k'.
      exfalso. apply Hnotin.
      change k with (fst (k, c)). now apply in_map.
    + now apply IH.
Qed.

Lemma firstActive_Some l k c :
  firstActive isActiveMode l = Some (k, c) ->
  In (k, c) l /\ isActiveMode (mode c) = true.
Proof.
  unfold firstActive. intros H. apply find_some in H. exact H.
Qed.

Lemma firstActive_None l k c :
  firstActive isActiveMode l = None ->
  In (k, c) l -> isActiveMode (mode c) = false.
Proof.
  unfold firstActive. intros H Hin.
  exact (find_none _ _ H (k, c) Hin).
Qed.

(** [findActiveTabId] elects as the design says. *)
Lemma findActiveTabId_elected w :
  wellFormed (tabControllers w) ->
  elected isActiveMode w (findActiveTabId isActiveMode w).
Proof.
  intros [Hnd Hkeys]. unfold findActiveTabId.
  destruct (lookup (currentTabId w) (tabControllers w)) as [c0 |] eqn:Hcur.
  - destruct (isActiveMode (mode c0)) eqn:Hact.
    + now apply elected_current with c0.
    + destruct (firstActive isActiveMode (tabControllers w)) as [[k c] |] eqn:Hfirst.
      * apply firstActive_Some in Hfirst. destruct Hfirst as [Hin Hc].
        rewrite (Hkeys k c Hin).
        apply elected_other with c; trivial.
        -- intros c' Hc'. rewrite Hcur in Hc'. injection Hc' as <-. exact Hact.
        -- now apply In_lookup.
      * apply elected_fallback with c0; trivial.
        intros t c Hl. apply lookup_In in Hl.
        now apply firstActive_None with (tabControllers w) t.
  - destruct (firstActive isActiveMode (tabControllers w)) as [[k c] |] eqn:Hfirst.
    + apply firstActive_Some in Hfirst. destruct Hfirst as [Hin Hc].
      rewrite (Hkeys k c Hin).
      apply elected_other with c; trivial.
      * intros c' Hc'. rewrite Hcur in Hc'. discriminate.
      * now apply In_lookup.
    + apply elected_none; trivial.
      intros t c Hl. apply lookup_In in Hl.
      now apply firstActive_None with (tabControllers w) t.
Qed.

(** Whatever is elected is no tab, or a tab with a controller in an
    active mode, or the current tab with its controller. *)
Lemma elected_cases w r :
  elected isActiveMode w r ->
  r = TAB_ID_NONE \/
  (exists c, lookup r (tabControllers w) = Some c /\ isActiveMode (mode c) = true) \/
  (r = currentTabId w /\ exists c, lookup r (tabControllers w) = Some c).
Proof.
  intros [c Hl Hc | t c _ Hl Hc | c _ Hl | _ _].
  - right. left. now exists c.
  - right. left. now exists c.
  - right. right. split; trivial. now exists c.
  - now left.
Qed.

Lemma updateLastActiveTab_run w :
  exists m e,
    updateLastActiveTab isActiveMode w =
    (Normal tt,
     {| currentTabId := currentTabId w;
        activeTabId :=
          if findActiveTabId isActiveMode w =? TAB_ID_NONE
          then activeTabId w
          else findActiveTabId isActiveMode w;
        tabControllers := tabControllers w;
        contextMenu := m;
        effects := e |}).
Proof.
  unfold updateLastActiveTab, bind at 1, get.
  destruct (findActiveTabId isActiveMode w =? TAB_ID_NONE) eqn:E; simpl.
  - unfold bind, emit, modify, resetContextMenu. simpl.
    eexists; eexists; reflexivity.
  - unfold bind at 1, modify at 1.
    unfold bind at 1. rewrite updateBrowserAction_run.
    rewrite updateContextMenu_active by reflexivity.
    eexists; eexists; reflexivity.
Qed.

Lemma processTabChange_run t w :
  exists m e,
    processTabChange isActiveMode isInactiveMode t w =
    (Normal tt,
     {| currentTabId := t;
        activeTabId :=
          if shouldUpdateBrowserAction isActiveMode isInactiveMode t (setCurrentTabId t w)
          then t
          else activeTabId w;
        tabControllers := tabControllers w;
        contextMenu := m;
        effects := e |}).
Proof.
  unfold processTabChange, bind at 1, modify at 1.
  unfold bind at 1, get.
  destruct (shouldUpdateBrowserAction isActiveMode isInactiveMode t (setCurrentTabId t w)) eqn:E.
  - unfold bind at 1. unfold bind at 1. rewrite updateBrowserAction_run.
    unfold modify. rewrite updateContextMenu_active by reflexivity.
    eexists; eexists; reflexivity.
  - unfold bind, ret.
    unfold shouldUpdateBrowserAction in E. simpl in E.
    destruct (lookup (activeTabId w) (tabControllers w)) as [a |] eqn:Ha.
    + destruct (updateContextMenu_with_active t (setCurrentTabId t w) Ha) as [m ->].
      eexists; eexists; reflexivity.
    + exfalso.
      rewrite Z.eqb_refl in E. simpl in E.
      destruct (lookup t (tabControllers w)); discriminate.
Qed.

(** ** Election with a single active controller *)

(** C6. In a state where exactly one controller entry is in an active
    mode, [findActiveTabId] returns the tab of that entry, whatever the
    current tab is. *)
Theorem findActiveTabId_single_active w t c :
  wellFormed (tabControllers w) ->
  lookup t (tabControllers w) = Some c ->
  isActiveMode (mode c) = true ->
  (forall t' c', lookup t' (tabControllers w) = Some c' ->
                 isActiveMode (mode c') = true -> t' = t) ->
  forall current,
    findActiveTabId isActiveMode (setCurrentTabId current w) = t /\
    findActiveTabId isActiveMode (setCurrentTabId current w) = tabId c.
Proof.
  intros Hwf Hl Hc Huniq current.
  assert (Ht : findActiveTabId isActiveMode (setCurrentTabId current w) = t).
  { pose proof (@findActiveTabId_elected (setCurrentTabId current w) Hwf) as He.
    inversion He as [c0 Hl0 Hc0 Heq | t0 c0 _ Hl0 Hc0 Heq | c0 Hnone _ Heq | Hnone _ Heq];
      simpl in *.
    - now apply Huniq with c0.
    - now apply Huniq with c0.
    - rewrite (Hnone t c Hl) in Hc. discriminate.
    - rewrite (Hnone t c Hl) in Hc. discriminate. }
  split; trivial.
  rewrite Ht. symmetry.
  destruct Hwf as [_ Hkeys]. apply Hkeys. now apply lookup_In.
Qed.

(** ** The context menu *)

(** C5. Tab [A] has a controller in an active mode and is the active
    tab; tab [B] is another tab and has no controller.  Then
    [processTabChange(B)] makes [B] the current tab, leaves [A] the
    active tab ([shouldUpdateBrowserAction(B)] is false), and rebuilds
    the menu as the single toggle item of [A]'s controller, shown for
    [B]. *)
Theorem processTabChange_keeps_playing_tab w A B a :
  lookup A (tabControllers w) = Some a ->
  isActiveMode (mode a) = true ->
  activeTabId w = A ->
  B <> A ->
  lookup B (tabControllers w) = None ->
  let w' := exec (processTabChange isActiveMode isInactiveMode B) w in
  result (processTabChange isActiveMode isInactiveMode B) w = Normal tt /\
  shouldUpdateBrowserAction isActiveMode isInactiveMode B (setCurrentTabId B w) = false /\
  currentTabId w' = B /\
  activeTabId w' = A /\
  tabControllers w' = tabControllers w /\
  contextMenu w' = [toggleItem B a] /\
  itemAction (toggleItem B a) = ToggleConnector (tabId a) (connector a) (negb (isEnabled a)) /\
  titleLabel (itemTitle (toggleItem B a)) = label (connector a).
Proof.
  intros Ha Hact HA HB Hb.
  assert (Hshould :
    shouldUpdateBrowserAction isActiveMode isInactiveMode B (setCurrentTabId B w) = false).
  { unfold shouldUpdateBrowserAction. simpl. now rewrite HA, Ha, Hact. }
  assert (Hne : (activeTabId w =? B) = false).
  { apply Z.eqb_neq. congruence. }
  assert (Hrun :
    processTabChange isActiveMode isInactiveMode B w =
    (Normal tt, setContextMenu [toggleItem B a] (setCurrentTabId B w))).
  { unfold processTabChange, bind at 1, modify at 1.
    unfold bind at 1, get. rewrite Hshould.
    unfold bind at 1, ret.
    unfold updateContextMenu, resetContextMenu, addToggleConnectorMenu,
      addContextMenuItem, bind, get, modify, ret.
    simpl. rewrite Hb, HA, Ha, <- HA, Hne. simpl. reflexivity. }
  unfold exec, result. rewrite Hrun. simpl.
  repeat split; trivial.
Qed.

(** C7. Tab [t] and the active tab are different tabs, both have a
    controller, and the two connectors have the same id.  Then
    [updateContextMenu(t)] builds the toggle item of [t]'s controller,
    followed by the disable-until-tab-closed item when that controller is
    enabled, and no toggle item for the active tab: the menu holds exactly
    one toggle item. *)
Theorem updateContextMenu_same_connector w t c a :
  activeTabId w <> t ->
  lookup t (tabControllers w) = Some c ->
  lookup (activeTabId w) (tabControllers w) = Some a ->
  id (connector a) = id (connector c) ->
  let w' := exec (updateContextMenu t) w in
  result (updateContextMenu t) w = Normal tt /\
  contextMenu w' =
    toggleItem t c :: (if isEnabled c then [disableUntilTabClosedItem t c] else []) /\
  filter isToggleItem (contextMenu w') = [toggleItem t c] /\
  List.length (filter isToggleItem (contextMenu w')) = 1%nat.
Proof.
  intros Hne Hc Ha Hid.
  assert (Hneb : (activeTabId w =? t) = false) by now apply Z.eqb_neq.
  assert (Hrun :
    updateContextMenu t w =
    (Normal tt,
     setContextMenu
       (toggleItem t c :: (if isEnabled c then [disableUntilTabClosedItem t c] else []))
       w)).
  { unfold_menu. rewrite Hc, Ha, Hneb, Hid, String.eqb_refl. simpl.
    unfold toggleItem, disableUntilTabClosedItem, setContextMenu.
    destruct (isEnabled c); reflexivity. }
  unfold exec, result. rewrite Hrun. simpl.
  repeat split; destruct (isEnabled c); reflexivity.
Qed.

(** With two different connectors the toggle item of the active tab
    comes last. *)
Lemma updateContextMenu_other_connector w t c a :
  activeTabId w <> t ->
  lookup t (tabControllers w) = Some c ->
  lookup (activeTabId w) (tabControllers w) = Some a ->
  id (connector a) <> id (connector c) ->
  updateContextMenu t w =
  (Normal tt, setContextMenu (ownItems t (Some c) ++ [toggleItem t a]) w).
Proof.
  intros Hne Hc Ha Hid.
  apply Z.eqb_neq in Hne. apply String.eqb_neq in Hid.
  unfold_menu. rewrite Hc, Ha, Hne, Hid. simpl.
  unfold toggleItem, disableUntilTabClosedItem, setContextMenu.
  destruct (isEnabled c); reflexivity.
Qed.

(** ** Messages *)

(** C8. [processMessage(t, 'REQUEST_ACTIVE_TABID', data)] returns the
    active tab id for every [t] and [data], with or without a controller
    for [t]; it logs nothing and leaves every controller as it is: the
    state is unchanged. *)
Theorem processMessage_active_tabid t data w :
  processMessage react t "REQUEST_ACTIVE_TABID" data w =
  (Normal (Number (activeTabId w)), w).
Proof.
  reflexivity.
Qed.

Lemma callController_run t call w :
  callController react t call w =
  (Normal tt,
   match lookup t (tabControllers w) with
   | Some ctrl =>
       setTabControllers (replaceEntry t (afterCall react call ctrl) (tabControllers w)) w
   | None => w
   end).
Proof.
  unfold callController, bind, get, modify, ret.
  now destruct (lookup t (tabControllers w)).
Qed.

(** C10. For a tab with a controller, [processMessage(t,
    'REQUEST_TOGGLE_LOVE', data)] returns [data.isLoved], the value of
    the request, whatever [toggleLove] has made of the controller. *)
Theorem processMessage_toggle_love_echo t data w c :
  lookup t (tabControllers w) = Some c ->
  result (processMessage react t "REQUEST_TOGGLE_LOVE" data) w = Normal (isLoved data).
Proof.
  intros Hc.
  unfold result, processMessage. simpl.
  unfold bind at 1, get. rewrite Hc.
  unfold bind. rewrite callController_run. reflexivity.
Qed.

Lemma map_fst_replaceEntry t c l :
  map fst (replaceEntry t c l) = map fst l.
Proof.
  induction l as [| [k c'] rest IH]; simpl; trivial.
  destruct (k =? t) eqn:E; simpl.
  - apply Z.eqb_eq in E. now subst.
  - now rewrite IH.
Qed.

Lemma processPortMessage_run t type data w :
  processPortMessage react t type data w =
  (Normal tt,
   if String.eqb type "EVENT_STATE_CHANGED"
   then match lookup t (tabControllers w) with
        | Some ctrl =>
            setTabControllers
              (replaceEntry t (afterCall react (OnStateChanged data) ctrl) (tabControllers w)) w
        | None => w
        end
   else w).
Proof.
  unfold processPortMessage.
  destruct (String.eqb type "EVENT_STATE_CHANGED"); [| reflexivity].
  unfold bind, get.
  destruct (lookup t (tabControllers w)) as [c |] eqn:Hc; [| reflexivity].
  now rewrite callController_run, Hc.
Qed.


(** ** Removing a tab *)

Lemma wellFormed_remove t l :
  wellFormed l -> wellFormed (remove t l).
Proof.
  intros [Hnd Hkeys]. split.
  - clear Hkeys. induction l as [| [k c] rest IH]; simpl; trivial.
    inversion Hnd as [| ? ? Hnotin Hnd']; subst.
    destruct (k =? t); simpl; [now apply IH |].
    constructor; [| now apply IH].
    intros Hin. apply Hnotin.
    apply in_map_iff in Hin. destruct Hin as [[k' c'] [Hk Hin]].
    simpl in Hk. subst k'.
    apply In_remove in Hin. destruct Hin as [Hin _].
    change k with (fst (k, c')). now apply in_map.
  - intros k c Hin. apply In_remove in Hin. now apply Hkeys.
Qed.

Lemma processTabRemove_run t w :
  exists m e,
    processTabRemove isActiveMode t w =
    (Normal tt,
     {| currentTabId := currentTabId w;
        activeTabId :=
          if t =? activeTabId w
          then findActiveTabId isActiveMode (setTabControllers (remove t (tabControllers w)) w)
          else activeTabId w;
        tabControllers := remove t (tabControllers w);
        contextMenu := m;
        effects := e |}).
Proof.
  unfold processTabRemove, bind at 1.
  rewrite unloadController_run.
  unfold bind at 1, get.
  assert (Hactive :
    activeTabId match lookup t (tabControllers w) with
                | Some ctrl =>
                    setTabControllers (remove t (tabControllers w))
                      (addEffect (ControllerFinish ctrl) w)
                | None => w
                end = activeTabId w).
  { now destruct (lookup t (tabControllers w)). }
  rewrite Hactive.
  destruct (t =? activeTabId w) eqn:E.
  - unfold bind at 1, modify at 1.
    match goal with
    | |- context [updateLastActiveTab isActiveMode ?w0] =>
        destruct (updateLastActiveTab_run w0) as [m [e ->]];
        assert (Hfind : findActiveTabId isActiveMode w0 =
                        findActiveTabId isActiveMode
                          (setTabControllers (remove t (tabControllers w)) w))
    end.
    { destruct (lookup t (tabControllers w)) eqn:Hl; simpl.
      - reflexivity.
      - unfold findActiveTabId. simpl. now rewrite (remove_absent _ _ Hl). }
    rewrite Hfind.
    exists m, e. f_equal.
    destruct (lookup t (tabControllers w)) eqn:Hl; simpl.
    + destruct (findActiveTabId isActiveMode _ =? TAB_ID_NONE) eqn:En; trivial.
      apply Z.eqb_eq in En. now rewrite En.
    + rewrite (remove_absent _ _ Hl).
      destruct (findActiveTabId isActiveMode _ =? TAB_ID_NONE) eqn:En; trivial.
      apply Z.eqb_eq in En. now rewrite En.
  - unfold ret.
    destruct (lookup t (tabControllers w)) eqn:Hl; simpl.
    + eexists; eexists; reflexivity.
    + rewrite (remove_absent _ _ Hl).
      exists (contextMenu w), (effects w). now destruct w.
Qed.

(** The election reads the current tab and the controllers only. *)
Lemma elected_ext w1 w2 r :
  currentTabId w1 = currentTabId w2 ->
  tabControllers w1 = tabControllers w2 ->
  elected isActiveMode w1 r -> elected isActiveMode w2 r.
Proof.
  intros Hcur Hctrls He.
  destruct He as [c Hl Hc | t c Hcur' Hl Hc | c Hnone Hl | Hnone Hl];
    rewrite ?Hcur, ?Hctrls in *.
  - now apply elected_current with c.
  - now apply elected_other with c.
  - now apply elected_fallback with c.
  - now apply elected_none.
Qed.

(** After the removal of the active tab, the active tab is the elected
    one. *)
Lemma processTabRemove_active w :
  wellFormed (tabControllers w) ->
  let w' := exec (processTabRemove isActiveMode (activeTabId w)) w in
  activeTabId w' = findActiveTabId isActiveMode w' /\
  elected isActiveMode w' (activeTabId w').
Proof.
  intros Hwf. unfold exec.
  destruct (processTabRemove_run (activeTabId w) w) as [m [e ->]].
  simpl. rewrite Z.eqb_refl.
  split; [reflexivity |].
  apply elected_ext with (setTabControllers (remove (activeTabId w) (tabControllers w)) w);
    trivial.
  apply findActiveTabId_elected. simpl. now apply wellFormed_remove.
Qed.

(** C4. After [processTabRemove(t)] tab [t] has no controller entry, the
    other entries are as before; and if [t] was the active tab, the
    active tab is now what the election gives over the remaining
    controllers, which is not the removed tab. *)
Theorem processTabRemove_reelects w t :
  wellFormed (tabControllers w) ->
  let w' := exec (processTabRemove isActiveMode t) w in
  result (processTabRemove isActiveMode t) w = Normal tt /\
  tabControllers w' = remove t (tabControllers w) /\
  lookup t (tabControllers w') = None /\
  currentTabId w' = currentTabId w /\
  (activeTabId w = t ->
     activeTabId w' = findActiveTabId isActiveMode w' /\
     elected isActiveMode w' (activeTabId w') /\
     (t <> TAB_ID_NONE -> activeTabId w' <> t)).
Proof.
  intros Hwf w'.
  assert (Hctrls : tabControllers w' = remove t (tabControllers w)).
  { unfold w', exec. now destruct (processTabRemove_run t w) as [m [e ->]]. }
  assert (Hnone : lookup t (tabControllers w') = None).
  { rewrite Hctrls. apply lookup_remove_same. }
  repeat split; trivial.
  - unfold result. now destruct (processTabRemove_run t w) as [m [e ->]].
  - unfold w', exec. now destruct (processTabRemove_run t w) as [m [e ->]].
  - subst t. apply (@processTabRemove_active w Hwf).
  - subst t. apply (@processTabRemove_active w Hwf).
  - intros Hreal Heq.
    assert (He : elected isActiveMode w' (activeTabId w')).
    { subst t. apply (@processTabRemove_active w Hwf). }
    apply elected_cases in He.
    rewrite Heq in He.
    destruct He as [Hn | [[c [Hl _]] | [_ [c Hl]]]].
    + contradiction.
    + rewrite Hnone in Hl. discriminate.
    + rewrite Hnone in Hl. discriminate.
Qed.

(** ** The invariant of the active tab *)



(** When the controller of the active tab turns inactive, the active
    tab stays where it is. *)
Lemma onModeChanged_inactive_run t m w c :
  lookup t (tabControllers w) = Some c ->
  isInactiveMode m = true ->
  activeTabId w = t ->
  exists c',
    onModeChanged isInactiveMode t m w =
    (Normal tt,
     {| currentTabId := currentTabId w;
        activeTabId := t;
        tabControllers := replaceEntry t c' (tabControllers w);
        contextMenu := contextMenu w;
        effects :=
          effects w ++
          [match lookup (currentTabId w) (replaceEntry t c' (tabControllers w)) with
           | Some current => BrowserActionUpdate current
           | None => BrowserActionReset
           end] |}) /\
    mode c' = m.
Proof.
  intros Hc Hm Ht.
  unfold onModeChanged, bind at 1, get. rewrite Hc.
  unfold bind at 1, modify at 1.
  match goal with
  | |- context [replaceEntry t ?x (tabControllers w)] => set (c' := x)
  end.
  exists c'. split; [| reflexivity].
  unfold processControlleModeChange. simpl mode. rewrite Hm.
  unfold bind at 1, get. cbv beta iota.
  cbn [activeTabId currentTabId setTabControllers].
  rewrite Ht, Z.eqb_refl.
  simpl. unfold bind, ret. rewrite updateBrowserAction_run.
  unfold addEffect. simpl. now rewrite Ht.
Qed.


(** ** The command that toggles the connector *)

(** With a controller to act on, ['toggle-connector'] ends in the call of
    a method the class does not have. *)
Lemma processCommand_toggle_connector w :
  lookup (activeTabId w) (tabControllers w) <> None \/
  lookup (currentTabId w) (tabControllers w) <> None ->
  processCommand react "toggle-connector" w =
  (Throw (TypeError "this.setControllerState is not a function"), w).
Proof.
  intros H. unfold processCommand, bind, get.
  destruct (lookup (activeTabId w) (tabControllers w)) as [a |]; [reflexivity |].
  destruct (lookup (currentTabId w) (tabControllers w)) as [c |]; [reflexivity |].
  now destruct H.
Qed.

(** The method of the menu items does what the command was meant to do:
    it calls [setEnabled] and stores the option. *)
Lemma setConnectorState_run t conn flag w :
  setConnectorState react t conn flag w =
  (Normal tt,
   addEffect (OptionsSetConnectorEnabled conn flag)
     match lookup t (tabControllers w) with
     | Some ctrl =>
         setTabControllers
           (replaceEntry t (afterCall react (SetEnabled flag) ctrl) (tabControllers w)) w
     | None => w
     end).
Proof.
  unfold setConnectorState, bind. now rewrite callController_run.
Qed.

(** Every other command returns. *)
Lemma processCommand_other_returns command w :
  command <> "toggle-connector" ->
  result (processCommand react command) w = Normal tt.
Proof.
  intros Hne. apply String.eqb_neq in Hne.
  unfold result, processCommand, bind at 1, get. cbv beta iota.
  rewrite Hne.
  destruct (lookup (activeTabId w) (tabControllers w)) as [a |].
  - destruct (String.eqb command "love-song" || String.eqb command "unlove-song");
      [| reflexivity].
    unfold bind. now rewrite callController_run.
  - destruct (lookup (currentTabId w) (tabControllers w)) as [c |]; [| reflexivity].
    destruct (String.eqb command "love-song" || String.eqb command "unlove-song");
      [| reflexivity].
    unfold bind. now rewrite callController_run.
Qed.

(** [processMessage] returns in every state. *)
Lemma processMessage_returns t type data w :
  exists v, result (processMessage react t type data) w = Normal v.
Proof.
  unfold result, processMessage.
  destruct (String.eqb type "REQUEST_ACTIVE_TABID"); [now eexists |].
  unfold bind at 1, get.
  destruct (lookup t (tabControllers w)); [| now eexists].
  repeat match goal with
    | |- context [if ?b then _ else _] => destruct b
    end;
    unfold bind; rewrite ?callController_run; now eexists.
Qed.

(** [processTabUpdate] returns in every state: the injection it starts
    is not awaited. *)
Lemma processTabUpdate_returns t conn res enabled w :
  result (processTabUpdate isActiveMode isInactiveMode initialMode noSong
            t conn res enabled) w = Normal tt.
Proof.
  reflexivity.
Qed.

(** [processTabChange] returns in every state. *)
Lemma processTabChange_returns t w :
  result (processTabChange isActiveMode isInactiveMode t) w = Normal tt.
Proof.
  unfold result. now destruct (processTabChange_run t w) as [m [e ->]].
Qed.

(** ** Reachable states are well formed *)



























Lemma reachable_performAll ops w :
  reachable isActiveMode isInactiveMode react initialMode noSong w ->
  reachable isActiveMode isInactiveMode react initialMode noSong
    (performAll isActiveMode isInactiveMode react initialMode noSong ops w).
Proof.
  revert w. induction ops as [| op ops IH]; intros w Hw; simpl; trivial.
  apply IH. now constructor.
Qed.

(** * Further properties of the worker *)

(** ** Storing a controller *)

Lemma lookup_insertIndex t t' c l :
  lookup t l = None ->
  lookup t' (insertIndex t c l) = if t =? t' then Some c else lookup t' l.
Proof.
  induction l as [| [k c'] rest IH]; simpl; trivial.
  destruct (k =? t) eqn:E; [discriminate |]. intros Hnone.
  destruct (isArrayIndex k && (k <? t)); simpl.
  - rewrite IH by assumption.
    destruct (k =? t') eqn:E'; trivial.
    apply Z.eqb_eq in E'. subst k.
    now rewrite Z.eqb_sym, E.
  - reflexivity.
Qed.

Lemma lookup_app_absent t t' c l :
  lookup t l = None ->
  lookup t' (l ++ [(t, c)]) = if t =? t' then Some c else lookup t' l.
Proof.
  induction l as [| [k c'] rest IH]; simpl; trivial.
  destruct (k =? t) eqn:E; [discriminate |]. intros Hnone.
  destruct (k =? t') eqn:E'.
  - apply Z.eqb_eq in E'. subst k. now rewrite Z.eqb_sym, E.
  - now apply IH.
Qed.

Lemma lookup_store t t' c l :
  lookup t' (store t c l) = if t =? t' then Some c else lookup t' l.
Proof.
  unfold store. destruct (lookup t l) eqn:Hl.
  - rewrite lookup_replaceEntry, Hl. reflexivity.
  - destruct (isArrayIndex t).
    + now apply lookup_insertIndex.
    + now apply lookup_app_absent.
Qed.

(** ** The rebuild of the context menu *)

(** What [updateContextMenu] does, case by case. *)
Lemma updateContextMenu_run t w :
  updateContextMenu t w =
  if activeTabId w =? t
  then (Normal tt, setContextMenu (ownItems t (lookup t (tabControllers w))) w)
  else
    match lookup (activeTabId w) (tabControllers w) with
    | None =>
        (Throw noControllerError,
         setContextMenu (ownItems t (lookup t (tabControllers w))) w)
    | Some a =>
        (Normal tt,
         setContextMenu
           (ownItems t (lookup t (tabControllers w)) ++
            match lookup t (tabControllers w) with
            | Some c =>
                if String.eqb (id (connector a)) (id (connector c))
                then []
                else [toggleItem t a]
            | None => [toggleItem t a]
            end) w)
    end.
Proof.
  unfold_menu.
  unfold ownItems, toggleItem, disableUntilTabClosedItem, setContextMenu, noControllerError.
  destruct (activeTabId w =? t); simpl;
    destruct (lookup t (tabControllers w)) as [c |];
    destruct (lookup (activeTabId w) (tabControllers w)) as [a |];
    try destruct (isEnabled c);
    try destruct (String.eqb (id (connector a)) (id (connector c)));
    reflexivity.
Qed.

(** X1. [updateContextMenu(t)] throws exactly when [t] is not the active
    tab and the active tab has no controller; it throws the [TypeError]
    of reading [getConnector] of [undefined], and otherwise returns. *)
Theorem updateContextMenu_throws_iff t w :
  (result (updateContextMenu t) w = Throw noControllerError <->
   activeTabId w <> t /\ lookup (activeTabId w) (tabControllers w) = None) /\
  (result (updateContextMenu t) w = Normal tt <->
   activeTabId w = t \/ lookup (activeTabId w) (tabControllers w) <> None).
Proof.
  unfold result. rewrite updateContextMenu_run.
  destruct (activeTabId w =? t) eqn:E.
  - apply Z.eqb_eq in E. simpl. split; split.
    + discriminate.
    + intros [Hne _]. contradiction.
    + now left.
    + reflexivity.
  - apply Z.eqb_neq in E.
    destruct (lookup (activeTabId w) (tabControllers w)) as [a |]; simpl; split; split.
    + discriminate.
    + intros [_ H]. discriminate.
    + intros _. right. discriminate.
    + reflexivity.
    + now split.
    + reflexivity.
    + discriminate.
    + intros [H | H]; contradiction.
Qed.

(** X2. The menu [updateContextMenu(t)] builds does not depend on the
    menu it finds, and building it a second time changes nothing: the
    rebuild is idempotent. *)
Theorem updateContextMenu_idempotent t w :
  (forall menu,
     updateContextMenu t (setContextMenu menu w) = updateContextMenu t w) /\
  updateContextMenu t (exec (updateContextMenu t) w) = updateContextMenu t w.
Proof.
  assert (Hany : forall menu,
            updateContextMenu t (setContextMenu menu w) = updateContextMenu t w).
  { intros menu. rewrite !updateContextMenu_run. simpl.
    destruct (activeTabId w =? t); [reflexivity |].
    destruct (lookup (activeTabId w) (tabControllers w)); reflexivity. }
  split; [exact Hany |].
  unfold exec. destruct (updateContextMenu_frame t w) as [r [m Heq]].
  rewrite Heq at 1. simpl. apply Hany.
Qed.

(** X3. After [updateContextMenu(t)] every item of the menu is an item of
    tab [t], the menu has at most three items, at most one of them is a
    disable-until-tab-closed item, and a tab without a controller gets no
    such item. *)
Theorem updateContextMenu_shape t w :
  let menu := contextMenu (exec (updateContextMenu t) w) in
  Forall (fun item => itemTab item = t) menu /\
  (List.length menu <= 3)%nat /\
  (List.length (filter (fun item => negb (isToggleItem item)) menu) <= 1)%nat /\
  (lookup t (tabControllers w) = None ->
   filter (fun item => negb (isToggleItem item)) menu = []).
Proof.
  unfold exec. rewrite updateContextMenu_run.
  destruct (activeTabId w =? t);
    [| destruct (lookup (activeTabId w) (tabControllers w)) as [a |]];
    destruct (lookup t (tabControllers w)) as [c |];
    simpl;
    try destruct (isEnabled c);
    try destruct (String.eqb (id (connector a)) (id (connector c)));
    simpl; repeat split; repeat constructor; discriminate.
Qed.

(** ** Injection *)

(** The steps of the [MATCHED] branch up to the rebuild of the menu. *)
Lemma tryToInjectConnector_matched_run t conn enabled w :
  let new := newController initialMode noSong t conn enabled in
  let w1 := match lookup t (tabControllers w) with
            | Some ctrl =>
                setTabControllers (remove t (tabControllers w))
                  (addEffect (ControllerFinish ctrl) w)
            | None => w
            end in
  let w2 := setTabControllers (store t new (tabControllers w1)) w1 in
  let w3 := if shouldUpdateBrowserAction isActiveMode isInactiveMode t w2
            then addEffect (BrowserActionUpdate new) w2
            else w2 in
  tryToInjectConnector isActiveMode isInactiveMode initialMode noSong
    t conn MATCHED enabled w =
  match updateContextMenu t w3 with
  | (Normal _, w4) =>
      (Normal tt,
       addEffect (ConnectorActivated conn) (addEffect (TabsSendMessage t "EVENT_READY") w4))
  | (Throw e, w4) => (Throw e, w4)
  end.
Proof.
  intros new w1 w2 w3.
  unfold tryToInjectConnector. unfold bind at 1. rewrite unloadController_run.
  fold w1. cbv beta iota.
  unfold bind at 1, createController, modify at 1. fold new. fold w2.
  unfold bind at 1, get.
  assert (Hnew : lookup t (tabControllers w2) = Some new).
  { unfold w2. simpl. now rewrite lookup_store, Z.eqb_refl. }
  unfold bind at 1.
  assert (Hstep :
    (if shouldUpdateBrowserAction isActiveMode isInactiveMode t w2
     then updateBrowserAction t
     else ret tt) w2 = (Normal tt, w3)).
  { unfold w3. destruct (shouldUpdateBrowserAction isActiveMode isInactiveMode t w2).
    - now rewrite updateBrowserAction_run, Hnew.
    - reflexivity. }
  rewrite Hstep.
  unfold bind at 1.
  destruct (updateContextMenu t w3) as [[[] | e] w4]; reflexivity.
Qed.

(** X4. When a connector matches in tab [t], the tab gets a fresh
    controller built from the connector and the stored option, whatever
    controller it had before; the controllers of the other tabs, the
    active tab and the current tab stay as they are.  This holds also
    when the method throws. *)
Theorem tryToInjectConnector_matched_state t conn enabled w :
  let w' := exec (tryToInjectConnector isActiveMode isInactiveMode initialMode noSong
                    t conn MATCHED enabled) w in
  lookup t (tabControllers w') = Some (newController initialMode noSong t conn enabled) /\
  (forall t', t' <> t ->
     lookup t' (tabControllers w') = lookup t' (tabControllers w)) /\
  activeTabId w' = activeTabId w /\
  currentTabId w' = currentTabId w.
Proof.
  unfold exec. rewrite tryToInjectConnector_matched_run.
  match goal with
  | |- context [updateContextMenu t ?w3] =>
      destruct (updateContextMenu_frame t w3) as [r [m ->]]; set (state := w3)
  end.
  assert (Hctrls : tabControllers state =
                   store t (newController initialMode noSong t conn enabled)
                     (remove t (tabControllers w))).
  { unfold state.
    destruct (shouldUpdateBrowserAction _ _ _ _);
      destruct (lookup t (tabControllers w)) eqn:Hl; simpl; trivial;
      now rewrite (remove_absent _ _ Hl). }
  assert (Hact : activeTabId state = activeTabId w).
  { unfold state.
    destruct (shouldUpdateBrowserAction _ _ _ _);
      destruct (lookup t (tabControllers w)); reflexivity. }
  assert (Hcur : currentTabId state = currentTabId w).
  { unfold state.
    destruct (shouldUpdateBrowserAction _ _ _ _);
      destruct (lookup t (tabControllers w)); reflexivity. }
  destruct r as [[] | e]; simpl; rewrite Hctrls, Hact, Hcur;
    (repeat split; trivial;
     [ now rewrite lookup_store, Z.eqb_refl
     | intros t' Hne; rewrite lookup_store;
       destruct (t =? t') eqn:E;
       [ apply Z.eqb_eq in E; congruence
       | apply lookup_remove_other; congruence ] ]).
Qed.

(** X5. The [MATCHED] branch throws exactly when [t] is not the active
    tab and the active tab has no controller.  When it returns, the last
    two calls it has made are [tabs.sendMessage(t, EVENT_READY)] and
    [onConnectorActivated(connector)]; when it throws, it has made
    neither: all it has called is [finish] of the old controller and the
    update of the browser action. *)
Theorem tryToInjectConnector_matched_result t conn enabled w :
  let run := tryToInjectConnector isActiveMode isInactiveMode initialMode noSong
               t conn MATCHED enabled w in
  (fst run = Throw noControllerError <->
   activeTabId w <> t /\ lookup (activeTabId w) (tabControllers w) = None) /\
  (fst run = Normal tt <->
   activeTabId w = t \/ lookup (activeTabId w) (tabControllers w) <> None) /\
  exists calls,
    Forall (fun e => match e with
                     | ControllerFinish _ | BrowserActionUpdate _ => True
                     | _ => False
                     end) calls /\
    effects (snd run) =
    (effects w ++ calls) ++
    match fst run with
    | Normal _ => [TabsSendMessage t "EVENT_READY"; ConnectorActivated conn]
    | Throw _ => []
    end.
Proof.
  cbv zeta. rewrite tryToInjectConnector_matched_run.
  match goal with
  | |- context [updateContextMenu t ?w3] => set (state := w3)
  end.
  assert (Hact : activeTabId state = activeTabId w).
  { unfold state.
    destruct (shouldUpdateBrowserAction _ _ _ _);
      destruct (lookup t (tabControllers w)); reflexivity. }
  assert (Hctrls : activeTabId w <> t ->
                   lookup (activeTabId w) (tabControllers state) =
                   lookup (activeTabId w) (tabControllers w)).
  { intros Hne.
    assert (Hl : tabControllers state =
                 store t (newController initialMode noSong t conn enabled)
                   (remove t (tabControllers w))).
    { unfold state.
      destruct (shouldUpdateBrowserAction _ _ _ _);
        destruct (lookup t (tabControllers w)) eqn:Hl; simpl; trivial;
        now rewrite (remove_absent _ _ Hl). }
    rewrite Hl, lookup_store.
    destruct (t =? activeTabId w) eqn:E.
    - apply Z.eqb_eq in E. congruence.
    - apply lookup_remove_other. congruence. }
  assert (Heff : exists calls,
            Forall (fun e => match e with
                             | ControllerFinish _ | BrowserActionUpdate _ => True
                             | _ => False
                             end) calls /\
            effects state = effects w ++ calls).
  { unfold state.
    destruct (shouldUpdateBrowserAction _ _ _ _);
      destruct (lookup t (tabControllers w)) as [old |]; simpl.
    - eexists [ControllerFinish old; BrowserActionUpdate _].
      split; [repeat constructor | now rewrite <- app_assoc].
    - eexists [BrowserActionUpdate _]. split; [repeat constructor | reflexivity].
    - exists [ControllerFinish old]. split; [repeat constructor | reflexivity].
    - exists []. split; [constructor | now rewrite app_nil_r]. }
  destruct Heff as [calls [Hcalls Heff]].
  rewrite updateContextMenu_run, Hact.
  destruct (activeTabId w =? t) eqn:E.
  - apply Z.eqb_eq in E. simpl. split; [| split].
    + split; [discriminate | intros [Hne _]; contradiction].
    + split; [now left | reflexivity].
    + exists calls. split; trivial. rewrite Heff. now rewrite <- !app_assoc.
  - apply Z.eqb_neq in E. rewrite (Hctrls E).
    destruct (lookup (activeTabId w) (tabControllers w)) as [a |]; simpl;
      (split; [| split]).
    + split; [discriminate | intros [_ H]; discriminate].
    + split; [intros _; right; discriminate | reflexivity].
    + exists calls. split; trivial. rewrite Heff. now rewrite <- !app_assoc.
    + split; [now split | reflexivity].
    + split; [discriminate | intros [H | H]; contradiction].
    + exists calls. split; trivial. rewrite Heff. now rewrite app_nil_r.
Qed.

(** The steps of the [NO_MATCH] branch for a tab with a controller. *)
Lemma tryToInjectConnector_no_match_run t conn enabled w old :
  lookup t (tabControllers w) = Some old ->
  tryToInjectConnector isActiveMode isInactiveMode initialMode noSong
    t conn NO_MATCH enabled w =
  updateLastActiveTab isActiveMode
    (setTabControllers (remove t (tabControllers w)) (addEffect (ControllerFinish old) w)).
Proof.
  intros Hold.
  unfold tryToInjectConnector, bind at 1, get. rewrite Hold.
  unfold bind. now rewrite unloadController_run, Hold.
Qed.

(** X6. When no connector matches in a tab that has a controller, the
    controller is finished and its entry removed, and the method returns.
    The active tab becomes the elected tab; but when nothing can be
    elected the active tab is left as it was, so that after the last
    controller has gone from the active tab while another tab is current,
    the active tab is still the tab whose controller was just removed.
    For a tab without a controller nothing happens at all. *)
Theorem tryToInjectConnector_no_match t conn enabled w :
  let run := tryToInjectConnector isActiveMode isInactiveMode initialMode noSong
               t conn NO_MATCH enabled w in
  let remaining := setTabControllers (remove t (tabControllers w)) w in
  (lookup t (tabControllers w) = None -> run = (Normal tt, w)) /\
  (lookup t (tabControllers w) <> None ->
     fst run = Normal tt /\
     tabControllers (snd run) = remove t (tabControllers w) /\
     currentTabId (snd run) = currentTabId w /\
     activeTabId (snd run) =
       (if findActiveTabId isActiveMode remaining =? TAB_ID_NONE
        then activeTabId w
        else findActiveTabId isActiveMode remaining) /\
     (activeTabId w = t ->
      findActiveTabId isActiveMode remaining = TAB_ID_NONE ->
      activeTabId (snd run) = t /\ lookup t (tabControllers (snd run)) = None)).
Proof.
  cbv zeta. split.
  - intros Hnone. unfold tryToInjectConnector, bind, get. now rewrite Hnone.
  - destruct (lookup t (tabControllers w)) as [old |] eqn:Hold; [| congruence].
    intros _.
    rewrite (@tryToInjectConnector_no_match_run t conn enabled w old Hold).
    match goal with
    | |- context [updateLastActiveTab isActiveMode ?w0] =>
        destruct (updateLastActiveTab_run w0) as [m [e ->]]
    end.
    simpl.
    change (findActiveTabId isActiveMode
              (setTabControllers (remove t (tabControllers w))
                 (addEffect (ControllerFinish old) w)))
      with (findActiveTabId isActiveMode
              (setTabControllers (remove t (tabControllers w)) w)).
    repeat split.
    + rewrite H0. simpl. exact H.
    + apply lookup_remove_same.
Qed.

(** ** Commands and messages *)

(** X7. ['love-song'] and ['unlove-song'] act on the controller of the
    active tab when it has one, and on the controller of the current tab
    otherwise: that controller is asked to [toggleLove] with the flag of
    the command, and the browser action is told the flag and the song the
    controller has afterwards.  Nothing else changes. *)
Theorem processCommand_love command w t c :
  command = "love-song" \/ command = "unlove-song" ->
  (t = activeTabId w /\ lookup (activeTabId w) (tabControllers w) = Some c) \/
  (t = currentTabId w /\ lookup (activeTabId w) (tabControllers w) = None /\
   lookup (currentTabId w) (tabControllers w) = Some c) ->
  let flag := String.eqb command "love-song" in
  let c' := afterCall react (ToggleLove (Bool flag)) c in
  processCommand react command w =
  (Normal tt,
   addEffect (BrowserActionSetSongLoved Mode flag (currentSong c'))
     (setTabControllers (replaceEntry t c' (tabControllers w)) w)).
Proof.
  intros Hcmd Htarget flag c'.
  assert (Htoggle : String.eqb command "toggle-connector" = false).
  { destruct Hcmd as [-> | ->]; reflexivity. }
  assert (Hlove : String.eqb command "love-song" || String.eqb command "unlove-song" = true).
  { destruct Hcmd as [-> | ->]; reflexivity. }
  unfold processCommand, bind at 1, get. cbv beta iota.
  destruct Htarget as [[-> Hc] | [-> [Hnone Hc]]].
  - rewrite Hc, Htoggle, Hlove.
    unfold bind, emit, modify. now rewrite callController_run, Hc.
  - rewrite Hnone, Hc, Htoggle, Hlove.
    unfold bind, emit, modify. now rewrite callController_run, Hc.
Qed.

(** X8. A command is a no-operation when neither the active nor the
    current tab has a controller, whatever the command; and a command
    other than the three known ones is a no-operation in every state. *)
Theorem processCommand_no_operation command w :
  (lookup (activeTabId w) (tabControllers w) = None ->
   lookup (currentTabId w) (tabControllers w) = None ->
   processCommand react command w = (Normal tt, w)) /\
  (command <> "toggle-connector" -> command <> "love-song" ->
   command <> "unlove-song" ->
   processCommand react command w = (Normal tt, w)).
Proof.
  split.
  - intros Ha Hc. unfold processCommand, bind, get. now rewrite Ha, Hc.
  - intros H1 H2 H3.
    apply String.eqb_neq in H1, H2, H3.
    unfold processCommand, bind, get. rewrite H1, H2, H3. simpl.
    destruct (lookup (activeTabId w) (tabControllers w)); [reflexivity |].
    destruct (lookup (currentTabId w) (tabControllers w)); reflexivity.
Qed.

(** X9. A message for a tab without a controller, of any type but
    ['REQUEST_ACTIVE_TABID'], is answered with [undefined]; one warning
    naming the type and the tab is logged and nothing else changes. *)
Theorem processMessage_missing_controller t type data w :
  type <> "REQUEST_ACTIVE_TABID" ->
  lookup t (tabControllers w) = None ->
  processMessage react t type data w =
  (Normal Undefined, addEffect (ConsoleWarn type t) w).
Proof.
  intros Htype Hnone. apply String.eqb_neq in Htype.
  unfold processMessage. rewrite Htype.
  unfold bind, get. now rewrite Hnone.
Qed.

(** The state after [processMessage]: at most the controller of the
    addressed tab is different, or one warning has been logged. *)
Lemma processMessage_state t type data w :
  exec (processMessage react t type data) w = w \/
  exec (processMessage react t type data) w = addEffect (ConsoleWarn type t) w \/
  exists c call,
    lookup t (tabControllers w) = Some c /\
    exec (processMessage react t type data) w =
    setTabControllers (replaceEntry t (afterCall react call c) (tabControllers w)) w.
Proof.
  unfold exec, processMessage.
  destruct (String.eqb type "REQUEST_ACTIVE_TABID"); [now left |].
  unfold bind, get. cbv beta iota.
  destruct (lookup t (tabControllers w)) as [c |] eqn:Hc; [| now right; left].
  repeat match goal with
    | |- context [if ?b then _ else _] => destruct b
    end;
    rewrite ?callController_run, ?Hc;
    try (now left);
    right; right; exists c; eexists; (split; [reflexivity |]); reflexivity.
Qed.


(** ** The active tab *)

Lemma processControlleModeChange_run c t w :
  processControlleModeChange isInactiveMode c t w =
  if isInactiveMode (mode c)
  then
    if activeTabId w =? t
    then updateBrowserAction (currentTabId w) w
    else (Normal tt, w)
  else
    if activeTabId w =? t
    then updateBrowserAction t w
    else
      match updateContextMenu (currentTabId w) (setActiveTabId t w) with
      | (Normal _, w1) => updateBrowserAction t w1
      | (Throw e, w1) => (Throw e, w1)
      end.
Proof.
  unfold processControlleModeChange, bind at 1, get. cbv beta iota.
  destruct (isInactiveMode (mode c)); destruct (activeTabId w =? t); reflexivity.
Qed.

(** X11. After [processControlleModeChange(ctrl, t)] the active tab is
    [t] when the mode of [ctrl] is not inactive, and the tab it was
    otherwise; the current tab and the controllers are untouched.  The
    method throws exactly when the mode is not inactive, [t] was not the
    active tab, [t] is not the current tab and no controller is stored
    for [t]: the hook of a controller that has been unloaded. *)
Theorem processControlleModeChange_activeTab c t w :
  let run := processControlleModeChange isInactiveMode c t w in
  activeTabId (snd run) = (if isInactiveMode (mode c) then activeTabId w else t) /\
  currentTabId (snd run) = currentTabId w /\
  tabControllers (snd run) = tabControllers w /\
  (fst run = Throw noControllerError <->
   isInactiveMode (mode c) = false /\ activeTabId w <> t /\
   t <> currentTabId w /\ lookup t (tabControllers w) = None) /\
  (fst run <> Throw noControllerError -> fst run = Normal tt).
Proof.
  cbv zeta. rewrite processControlleModeChange_run.
  destruct (isInactiveMode (mode c)) eqn:Hm;
    destruct (activeTabId w =? t) eqn:E.
  - rewrite updateBrowserAction_run. simpl.
    repeat split; try discriminate. intros [H _]. discriminate.
  - simpl. repeat split; try discriminate. intros [H _]. discriminate.
  - apply Z.eqb_eq in E. rewrite updateBrowserAction_run. simpl.
    repeat split; trivial; try discriminate. intros [_ [H _]]. contradiction.
  - apply Z.eqb_neq in E.
    rewrite updateContextMenu_run.
    cbn [activeTabId currentTabId tabControllers setActiveTabId].
    destruct (t =? currentTabId w) eqn:Ecur.
    + apply Z.eqb_eq in Ecur. rewrite updateBrowserAction_run. simpl.
      repeat split; trivial; try discriminate. intros [_ [_ [H _]]]. contradiction.
    + apply Z.eqb_neq in Ecur.
      destruct (lookup t (tabControllers w)) as [a |] eqn:Ha.
      * rewrite updateBrowserAction_run. simpl.
        repeat split; trivial; try discriminate. intros [_ [_ [_ H]]]. discriminate.
      * simpl. repeat split; trivial. intros H. now contradiction H.
Qed.

(** X12. [processTabChange(t)] returns in every state and makes [t] the
    current tab.  It makes [t] the active tab too, unless the active tab
    has a controller in an active mode, which then stays the active tab:
    the test of the inactive mode in [shouldUpdateBrowserAction] plays no
    part here, because [t] has just become the current tab. *)
Theorem processTabChange_activeTab t w :
  let run := processTabChange isActiveMode isInactiveMode t w in
  fst run = Normal tt /\
  currentTabId (snd run) = t /\
  tabControllers (snd run) = tabControllers w /\
  activeTabId (snd run) =
    match lookup (activeTabId w) (tabControllers w) with
    | Some a => if isActiveMode (mode a) then activeTabId w else t
    | None => t
    end.
Proof.
  cbv zeta. destruct (processTabChange_run t w) as [m [e ->]]. simpl.
  repeat split.
  unfold shouldUpdateBrowserAction. simpl. rewrite Z.eqb_refl. simpl.
  destruct (lookup (activeTabId w) (tabControllers w)) as [a |].
  - destruct (isActiveMode (mode a)); trivial.
    destruct (lookup t (tabControllers w)); reflexivity.
  - destruct (lookup t (tabControllers w)); reflexivity.
Qed.

(** X13. [processTabRemove(t)] for a tab that is not the active tab
    finishes and removes the controller of [t], if it has one, and does
    nothing else: the active tab stays, and the context menu is not
    rebuilt, so an item made for the removed controller stays in the
    menu.  Without a controller for [t] the state is unchanged. *)
Theorem processTabRemove_other_tab t w :
  t <> activeTabId w ->
  processTabRemove isActiveMode t w =
  (Normal tt,
   match lookup t (tabControllers w) with
   | Some ctrl =>
       setTabControllers (remove t (tabControllers w)) (addEffect (ControllerFinish ctrl) w)
   | None => w
   end) /\
  contextMenu (exec (processTabRemove isActiveMode t) w) = contextMenu w /\
  activeTabId (exec (processTabRemove isActiveMode t) w) = activeTabId w.
Proof.
  intros Hne. apply Z.eqb_neq in Hne.
  assert (Hrun :
    processTabRemove isActiveMode t w =
    (Normal tt,
     match lookup t (tabControllers w) with
     | Some ctrl =>
         setTabControllers (remove t (tabControllers w))
           (addEffect (ControllerFinish ctrl) w)
     | None => w
     end)).
  { unfold processTabRemove, bind at 1. rewrite unloadController_run.
    unfold bind, get.
    destruct (lookup t (tabControllers w)); simpl; now rewrite Hne. }
  unfold exec. rewrite Hrun.
  repeat split; destruct (lookup t (tabControllers w)); reflexivity.
Qed.

(** The election gives no tab, or a tab with a controller. *)
Lemma findActiveTabId_cases w :
  wellFormed (tabControllers w) ->
  findActiveTabId isActiveMode w = TAB_ID_NONE \/
  exists c, lookup (findActiveTabId isActiveMode w) (tabControllers w) = Some c.
Proof.
  intros Hwf.
  destruct (elected_cases (@findActiveTabId_elected w Hwf)) as [H | [[c [Hc _]] | [_ [c Hc]]]].
  - now left.
  - right. now exists c.
  - right. now exists c.
Qed.

(** X14. In a well-formed state [findActiveTabId] never returns a tab
    without a controller: the tab it returns, if it is one, has a
    controller, and that controller is in an active mode or the tab is
    the current one. *)
Theorem findActiveTabId_has_controller w :
  wellFormed (tabControllers w) ->
  findActiveTabId isActiveMode w <> TAB_ID_NONE ->
  exists c,
    lookup (findActiveTabId isActiveMode w) (tabControllers w) = Some c /\
    (isActiveMode (mode c) = true \/ findActiveTabId isActiveMode w = currentTabId w).
Proof.
  intros Hwf Hreal.
  destruct (elected_cases (@findActiveTabId_elected w Hwf)) as [H | [[c [Hc Hact]] | [Hcur [c Hc]]]].
  - contradiction.
  - exists c. split; trivial. now left.
  - exists c. split; trivial. now right.
Qed.


(** X16. [updateLastActiveTab] returns in every state.  When the election
    gives a tab, that tab becomes the active one, the browser action is
    updated for it and the menu is rebuilt with the items of that tab
    only; when it gives none, the browser action is reset and the menu
    emptied, and the active tab is left as it was. *)
Theorem updateLastActiveTab_cases w :
  let r := findActiveTabId isActiveMode w in
  (r = TAB_ID_NONE ->
   updateLastActiveTab isActiveMode w =
   (Normal tt, setContextMenu [] (addEffect BrowserActionReset w))) /\
  (r <> TAB_ID_NONE ->
   updateLastActiveTab isActiveMode w =
   (Normal tt,
    setContextMenu (ownItems r (lookup r (tabControllers w)))
      (addEffect (match lookup r (tabControllers w) with
                  | Some ctrl => BrowserActionUpdate ctrl
                  | None => BrowserActionReset
                  end)
         (setActiveTabId r w)))).
Proof.
  cbv zeta. split.
  - intros Hr. unfold updateLastActiveTab, bind at 1, get. rewrite Hr. reflexivity.
  - intros Hr. apply Z.eqb_neq in Hr.
    unfold updateLastActiveTab, bind, get, modify. rewrite Hr.
    cbn [negb]. cbv beta iota.
    rewrite updateBrowserAction_run.
    now rewrite updateContextMenu_active.
Qed.

(** ** What the events leave alone *)

Section Preservation.

Variable R : Worker Mode Song -> Worker Mode Song -> Prop.
Hypothesis R_refl : forall w, R w w.
Hypothesis R_trans : forall w1 w2 w3, R w1 w2 -> R w2 w3 -> R w1 w3.

Lemma preserves_ret A (a : A) : preserves R (ret a).
Proof. intros w. apply R_refl. Qed.

Lemma preserves_throw A e : preserves R (throw e : M Mode Song A).
Proof. intros w. apply R_refl. Qed.

Lemma preserves_get : preserves R (@get Mode Song).
Proof. intros w. apply R_refl. Qed.

Lemma preserves_bind A B (m : M Mode Song A) (k : A -> M Mode Song B) :
  preserves R m -> (forall a, preserves R (k a)) -> preserves R (bind m k).
Proof.
  intros Hm Hk w. unfold bind.
  specialize (Hm w).
  destruct (m w) as [[a | e] w1]; simpl in *; [| exact Hm].
  apply R_trans with w1; trivial. apply Hk.
Qed.

Lemma preserves_notAwaited A (m : M Mode Song A) :
  preserves R m -> preserves R (notAwaited m).
Proof. intros Hm w. apply Hm. Qed.

End Preservation.

Section TabsRelation.

Variable R : Worker Mode Song -> Worker Mode Song -> Prop.
Hypothesis R_tabs : tabsRelation R.
Hypothesis R_trans : forall w1 w2 w3, R w1 w2 -> R w2 w3 -> R w1 w3.

Lemma R_refl w : R w w.
Proof. now apply R_tabs. Qed.

Ltac step_bind := apply preserves_bind; [exact R_trans | | intros ?].
Ltac step_ret := apply preserves_ret; exact R_refl.
Ltac step_get := apply preserves_get; exact R_refl.

Lemma preserves_emit (e : Effect Mode Song) : preserves R (emit e).
Proof. intros w. now apply R_tabs. Qed.

Lemma preserves_setActiveTabId t : preserves R (modify (@setActiveTabId Mode Song t)).
Proof. intros w. now apply R_tabs. Qed.

Lemma preserves_updateBrowserAction t : preserves R (@updateBrowserAction Mode Song t).
Proof. intros w. rewrite updateBrowserAction_run. now apply R_tabs. Qed.

Lemma preserves_updateContextMenu t : preserves R (@updateContextMenu Mode Song t).
Proof.
  intros w. destruct (updateContextMenu_frame t w) as [r [m ->]]. now apply R_tabs.
Qed.

Lemma preserves_callController t call : preserves R (callController react t call).
Proof.
  intros w. rewrite callController_run.
  destruct (lookup t (tabControllers w)); apply R_tabs; simpl; trivial.
  apply map_fst_replaceEntry.
Qed.

Lemma preserves_processControlleModeChange c t :
  preserves R (processControlleModeChange isInactiveMode c t).
Proof.
  unfold processControlleModeChange.
  step_bind; [step_get |].
  match goal with
  | |- preserves R (if ?b then _ else _) => destruct b; [step_ret |]
  end.
  step_bind; [| step_bind].
  - match goal with
    | |- preserves R (if ?b then _ else _) =>
        destruct b; [apply preserves_setActiveTabId | step_ret]
    end.
  - match goal with
    | |- preserves R (if ?b then _ else _) =>
        destruct b; [apply preserves_updateContextMenu | step_ret]
    end.
  - destruct (isInactiveMode (mode c)); apply preserves_updateBrowserAction.
Qed.

Lemma preserves_onModeChanged t m :
  preserves R (onModeChanged isInactiveMode t m : M Mode Song unit).
Proof.
  intros w. unfold onModeChanged, bind at 1, get.
  destruct (lookup t (tabControllers w)) as [c |]; [| apply R_refl].
  unfold bind, modify.
  match goal with
  | |- context [processControlleModeChange _ ?c' t ?w0] =>
      pose proof (@preserves_processControlleModeChange c' t w0) as Hk;
      destruct (processControlleModeChange isInactiveMode c' t w0) as [[[] | e] w1]
  end; simpl in *;
    (eapply R_trans; [| exact Hk]);
    apply R_tabs; simpl; trivial; apply map_fst_replaceEntry.
Qed.

Lemma preserves_processCommand command : preserves R (processCommand react command).
Proof.
  unfold processCommand.
  step_bind; [step_get |].
  match goal with
  | |- preserves R (match ?x with _ => _ end) => destruct x as [[t c] |]
  end; [| step_ret].
  destruct (String.eqb command "toggle-connector");
    [apply preserves_throw; exact R_refl |].
  destruct (String.eqb command "love-song" || String.eqb command "unlove-song");
    [| step_ret].
  step_bind; [apply preserves_callController | apply preserves_emit].
Qed.

Lemma preserves_onClicked action stored : preserves R (onClicked react action stored).
Proof.
  destruct action, stored; simpl.
  - unfold setConnectorState.
    step_bind; [apply preserves_callController | apply preserves_emit].
  - apply preserves_emit.
  - apply preserves_callController.
  - step_ret.
Qed.

Lemma preserves_onclick item stored :
  preserves R (onclick isActiveMode isInactiveMode react item stored).
Proof.
  unfold onclick.
  step_bind; [apply preserves_onClicked |].
  step_bind; [apply preserves_updateContextMenu |].
  step_bind; [step_get |].
  match goal with
  | |- preserves R (if ?b then _ else _) =>
      destruct b; [apply preserves_updateBrowserAction | step_ret]
  end.
Qed.

Lemma preserves_messages op :
  keepsTabs op && negb (isTabChange op) = true ->
  preserves R (perform isActiveMode isInactiveMode react initialMode noSong op).
Proof.
  destruct op; simpl; try discriminate; intros _.
  - apply preserves_processCommand.
  - intros w.
    assert (Hsnd : snd (bind (processMessage react t type data) (fun _ => ret tt) w) =
                   exec (processMessage react t type data) w).
    { unfold bind, exec.
      now destruct (processMessage react t type data w) as [[v | e] w1]. }
    rewrite Hsnd.
    destruct (processMessage_state t type data w) as [-> | [-> | [c [call [Hc ->]]]]].
    + apply R_refl.
    + now apply R_tabs.
    + apply R_tabs; simpl; trivial. apply map_fst_replaceEntry.
  - intros w. rewrite processPortMessage_run.
    destruct (String.eqb type "EVENT_STATE_CHANGED"); [| apply R_refl].
    destruct (lookup t (tabControllers w)); [| apply R_refl].
    apply R_tabs; simpl; trivial. apply map_fst_replaceEntry.
  - apply preserves_onModeChanged.
Qed.

End TabsRelation.

Lemma sameKeys_trans (w1 w2 w3 : Worker Mode Song) :
  sameKeys w1 w2 -> sameKeys w2 w3 -> sameKeys w1 w3.
Proof. unfold sameKeys. congruence. Qed.

Lemma sameCurrentTab_trans (w1 w2 w3 : Worker Mode Song) :
  sameCurrentTab w1 w2 -> sameCurrentTab w2 w3 -> sameCurrentTab w1 w3.
Proof. unfold sameCurrentTab. congruence. Qed.

Lemma tryToInjectConnector_currentTab t conn res enabled w :
  currentTabId (snd (tryToInjectConnector isActiveMode isInactiveMode initialMode noSong
                       t conn res enabled w)) = currentTabId w.
Proof.
  destruct res.
  - reflexivity.
  - rewrite tryToInjectConnector_matched_run.
    match goal with
    | |- context [updateContextMenu t ?w3] =>
        destruct (updateContextMenu_frame t w3) as [r [m ->]]
    end.
    destruct r as [[] | e]; simpl;
      destruct (shouldUpdateBrowserAction _ _ _ _);
      destruct (lookup t (tabControllers w)); reflexivity.
  - destruct (lookup t (tabControllers w)) as [old |] eqn:Hold.
    + rewrite (@tryToInjectConnector_no_match_run t conn enabled w old Hold).
      match goal with
      | |- context [updateLastActiveTab isActiveMode ?w0] =>
          now destruct (updateLastActiveTab_run w0) as [m [e ->]]
      end.
    + unfold tryToInjectConnector, bind, get. now rewrite Hold.
Qed.

(** X17. The tabs that have a controller change only when a connector is
    injected or a tab is removed: a change of the current tab, a command,
    a message, a port message and a change of mode leave the same tabs
    with a controller, in the same order. *)
Theorem perform_keeps_tabs op w :
  keepsTabs op = true ->
  map fst (tabControllers
             (exec (perform isActiveMode isInactiveMode react initialMode noSong op) w)) =
  map fst (tabControllers w).
Proof.
  intros Hop.
  destruct (isTabChange op) eqn:Hchange.
  - destruct op; try discriminate. unfold exec. simpl.
    now destruct (processTabChange_run t w) as [m [e ->]].
  - apply (@preserves_messages (@sameKeys Mode Song)).
    + intros w1 w2 _ Hkeys. exact Hkeys.
    + exact sameKeys_trans.
    + now rewrite Hop, Hchange.
Qed.

(** X18. The current tab changes in [processTabChange] only: every other
    event leaves it as it is, also when its handler throws. *)
Theorem perform_keeps_currentTab op w :
  isTabChange op = false ->
  currentTabId (exec (perform isActiveMode isInactiveMode react initialMode noSong op) w) =
  currentTabId w.
Proof.
  intros Hop.
  destruct (keepsTabs op) eqn:Hkeeps.
  - apply (@preserves_messages (@sameCurrentTab Mode Song)).
    + intros w1 w2 Hcur _. exact Hcur.
    + exact sameCurrentTab_trans.
    + now rewrite Hop, Hkeeps.
  - destruct op; try discriminate; unfold exec; simpl.
    + apply tryToInjectConnector_currentTab.
    + now destruct (processTabRemove_run t w) as [m [e ->]].
Qed.

(** ** Clicks on the menu *)

Lemma onClicked_run action stored w :
  onClicked react action stored w =
  (Normal tt,
   match action with
   | ToggleConnector ctrlTab ctrlConnector newState =>
       addEffect (OptionsSetConnectorEnabled ctrlConnector newState)
         (if stored then snd (callController react ctrlTab (SetEnabled newState) w) else w)
   | DisableUntilTabClosed ctrlTab _ =>
       if stored then snd (callController react ctrlTab (SetEnabled false) w) else w
   end).
Proof.
  destruct action, stored; simpl; trivial.
  - now rewrite setConnectorState_run, callController_run.
  - now rewrite callController_run.
Qed.

Lemma onclick_run item stored w :
  onclick isActiveMode isInactiveMode react item stored w =
  match updateContextMenu (itemTab item) (exec (onClicked react (itemAction item) stored) w) with
  | (Normal _, w2) =>
      (Normal tt,
       if shouldUpdateBrowserAction isActiveMode isInactiveMode (itemTab item) w2
       then snd (updateBrowserAction (itemTab item) w2)
       else w2)
  | (Throw e, w2) => (Throw e, w2)
  end.
Proof.
  unfold onclick, exec, bind at 1. rewrite onClicked_run. cbv beta iota.
  unfold bind at 1. simpl snd.
  match goal with
  | |- context [updateContextMenu (itemTab item) ?w1] =>
      destruct (updateContextMenu (itemTab item) w1) as [[[] | e] w2]
  end; [| reflexivity].
  unfold bind, get.
  destruct (shouldUpdateBrowserAction isActiveMode isInactiveMode (itemTab item) w2);
    [| reflexivity].
  now rewrite updateBrowserAction_run.
Qed.

(** X19. A click on a menu item changes neither the current tab, nor the
    active tab, nor the tabs that have a controller.  It rebuilds the
    menu for the tab the item was made for, and so it throws exactly when
    that tab is not the active tab and the active tab has no
    controller. *)
Theorem onclick_frame item stored w :
  let run := onclick isActiveMode isInactiveMode react item stored w in
  currentTabId (snd run) = currentTabId w /\
  activeTabId (snd run) = activeTabId w /\
  map fst (tabControllers (snd run)) = map fst (tabControllers w) /\
  contextMenu (snd run) =
    contextMenu (exec (updateContextMenu (itemTab item))
                   (exec (onClicked react (itemAction item) stored) w)) /\
  (fst run = Throw noControllerError <->
   activeTabId w <> itemTab item /\ lookup (activeTabId w) (tabControllers w) = None) /\
  (fst run <> Throw noControllerError -> fst run = Normal tt).
Proof.
  cbv zeta. rewrite onclick_run.
  set (w1 := exec (onClicked react (itemAction item) stored) w).
  assert (Hcur : currentTabId w1 = currentTabId w).
  { unfold w1, exec. rewrite onClicked_run. simpl.
    destruct (itemAction item), stored; simpl; trivial;
      rewrite callController_run; now destruct (lookup _ _). }
  assert (Hact : activeTabId w1 = activeTabId w).
  { unfold w1, exec. rewrite onClicked_run. simpl.
    destruct (itemAction item), stored; simpl; trivial;
      rewrite callController_run; now destruct (lookup _ _). }
  assert (Hkeys : map fst (tabControllers w1) = map fst (tabControllers w)).
  { unfold w1, exec. rewrite onClicked_run. simpl.
    destruct (itemAction item), stored; simpl; trivial;
      rewrite callController_run; destruct (lookup _ _); simpl; trivial;
      apply map_fst_replaceEntry. }
  assert (Hnone : forall k, lookup k (tabControllers w1) = None <->
                            lookup k (tabControllers w) = None).
  { intros k. unfold w1, exec. rewrite onClicked_run. simpl.
    destruct (itemAction item) as [ct cc ns | ct cc], stored; simpl; try tauto;
      rewrite callController_run;
      destruct (lookup ct (tabControllers w)) eqn:Hl; simpl; try tauto;
      rewrite lookup_replaceEntry, Hl;
      (destruct (ct =? k) eqn:E; [| tauto]);
      apply Z.eqb_eq in E; subst k; rewrite Hl; split; discriminate. }
  pose proof (updateContextMenu_run (itemTab item) w1) as Hrun.
  unfold exec at 1.
  rewrite Hact in Hrun.
  destruct (activeTabId w =? itemTab item) eqn:E.
  - apply Z.eqb_eq in E. rewrite Hrun. simpl.
    destruct (shouldUpdateBrowserAction _ _ _ _);
      rewrite ?updateBrowserAction_run; simpl; rewrite Hcur, Hact, Hkeys;
      (repeat split; trivial; try discriminate; intros [H _]; contradiction).
  - apply Z.eqb_neq in E.
    destruct (lookup (activeTabId w) (tabControllers w1)) as [a |] eqn:Ha.
    + rewrite Hrun. simpl.
      assert (Hsome : lookup (activeTabId w) (tabControllers w) <> None).
      { intros H. apply Hnone in H. congruence. }
      destruct (shouldUpdateBrowserAction _ _ _ _);
        rewrite ?updateBrowserAction_run; simpl; rewrite Hcur, Hact, Hkeys;
        (repeat split; trivial; try discriminate; intros [_ H]; contradiction).
    + rewrite Hrun. simpl. rewrite Hcur, Hact, Hkeys.
      apply Hnone in Ha.
      repeat split; trivial. intros H. now contradiction H.
Qed.


(** ** Injection followed by removal *)







(** ** The order of the scan in the election *)










(** ** Invariants of the reachable states *)


Section MenuInvariant.

(** A property of the menu that every rebuild and the empty menu
    establish. *)
Variable P : Worker Mode Song -> Prop.
Hypothesis P_menu : forall w w', contextMenu w' = contextMenu w -> P w -> P w'.
Hypothesis P_rebuilt : forall t w, P (snd (updateContextMenu t w)).
Hypothesis P_empty : forall w, P (setContextMenu [] w).

Lemma invariant_ret A (a : A) : keeps P (ret a).
Proof. intros w H. exact H. Qed.

Lemma invariant_bind A B (m : M Mode Song A) (k : A -> M Mode Song B) :
  keeps P m -> (forall a, keeps P (k a)) -> keeps P (bind m k).
Proof.
  intros Hm Hk w Hw. unfold bind.
  specialize (Hm w Hw).
  destruct (m w) as [[a | e] w1]; simpl in *; [| exact Hm].
  now apply Hk.
Qed.

Ltac inv_bind := apply invariant_bind; [| intros ?].

Lemma invariant_get : keeps P (@get Mode Song).
Proof. intros w H. exact H. Qed.

Lemma invariant_emit (e : Effect Mode Song) : keeps P (emit e).
Proof. intros w. now apply P_menu. Qed.

Lemma invariant_setActiveTabId t : keeps P (modify (@setActiveTabId Mode Song t)).
Proof. intros w. now apply P_menu. Qed.

Lemma invariant_updateBrowserAction t : keeps P (@updateBrowserAction Mode Song t).
Proof. intros w. rewrite updateBrowserAction_run. now apply P_menu. Qed.

Lemma invariant_updateContextMenu t : keeps P (@updateContextMenu Mode Song t).
Proof. intros w _. apply P_rebuilt. Qed.

Lemma invariant_callController t call : keeps P (callController react t call).
Proof.
  intros w. rewrite callController_run.
  destruct (lookup t (tabControllers w)); now apply P_menu.
Qed.

Lemma invariant_unloadController t : keeps P (notAwaited (@unloadController Mode Song t)).
Proof.
  intros w. rewrite unloadController_run.
  destruct (lookup t (tabControllers w)); now apply P_menu.
Qed.

Lemma invariant_updateLastActiveTab :
  keeps P (@updateLastActiveTab Mode isActiveMode Song).
Proof.
  unfold updateLastActiveTab.
  inv_bind; [apply invariant_get |].
  match goal with
  | |- keeps P (if ?b then _ else _) => destruct b
  end.
  - inv_bind; [apply invariant_setActiveTabId |].
    inv_bind; [apply invariant_updateBrowserAction | apply invariant_updateContextMenu].
  - inv_bind; [apply invariant_emit |].
    intros w _. apply P_empty.
Qed.

Lemma invariant_processControlleModeChange c t :
  keeps P (processControlleModeChange isInactiveMode c t).
Proof.
  unfold processControlleModeChange.
  inv_bind; [apply invariant_get |].
  match goal with
  | |- keeps P (if ?b then _ else _) => destruct b; [apply invariant_ret |]
  end.
  inv_bind; [| inv_bind].
  - match goal with
    | |- keeps P (if ?b then _ else _) =>
        destruct b; [apply invariant_setActiveTabId | apply invariant_ret]
    end.
  - match goal with
    | |- keeps P (if ?b then _ else _) =>
        destruct b; [apply invariant_updateContextMenu | apply invariant_ret]
    end.
  - destruct (isInactiveMode (mode c)); apply invariant_updateBrowserAction.
Qed.

Lemma invariant_perform op :
  keeps P (perform isActiveMode isInactiveMode react initialMode noSong op).
Proof.
  destruct op as [t conn res enabled | t | t | command | t type data | t type data | t m];
    simpl.
  - unfold processTabUpdate, notAwaited. intros w Hw. simpl.
    revert w Hw. change (keeps P (tryToInjectConnector isActiveMode isInactiveMode
                                    initialMode noSong t conn res enabled)).
    destruct res; simpl.
    + apply invariant_ret.
    + inv_bind; [apply invariant_unloadController |].
      inv_bind; [intros w; now apply P_menu |].
      inv_bind; [apply invariant_get |].
      inv_bind.
      { match goal with
        | |- keeps P (if ?b then _ else _) =>
            destruct b; [apply invariant_updateBrowserAction | apply invariant_ret]
        end. }
      inv_bind; [apply invariant_updateContextMenu |].
      inv_bind; apply invariant_emit.
    + inv_bind; [apply invariant_get |].
      match goal with
      | |- keeps P (match ?x with _ => _ end) => destruct x; [| apply invariant_ret]
      end.
      inv_bind; [apply invariant_unloadController | apply invariant_updateLastActiveTab].
  - unfold processTabChange.
    inv_bind; [intros w; now apply P_menu |].
    inv_bind; [apply invariant_get |].
    inv_bind; [| apply invariant_updateContextMenu].
    match goal with
    | |- keeps P (if ?b then _ else _) => destruct b; [| apply invariant_ret]
    end.
    inv_bind; [apply invariant_updateBrowserAction | apply invariant_setActiveTabId].
  - unfold processTabRemove.
    inv_bind; [apply invariant_unloadController |].
    inv_bind; [apply invariant_get |].
    match goal with
    | |- keeps P (if ?b then _ else _) => destruct b; [| apply invariant_ret]
    end.
    inv_bind; [apply invariant_setActiveTabId | apply invariant_updateLastActiveTab].
  - intros w Hw. apply P_menu with w; trivial.
    unfold processCommand, bind at 1, get. cbv beta iota.
    match goal with
    | |- context [match ?x with Some _ => _ | None => ret tt end] =>
        destruct x as [[t c] |]
    end; [| reflexivity].
    destruct (String.eqb command "toggle-connector"); [reflexivity |].
    destruct (String.eqb command "love-song" || String.eqb command "unlove-song");
      [| reflexivity].
    unfold bind. rewrite callController_run.
    now destruct (lookup t (tabControllers w)).
  - intros w Hw. apply P_menu with w; trivial.
    assert (Hsnd : snd (bind (processMessage react t type data) (fun _ => ret tt) w) =
                   exec (processMessage react t type data) w).
    { unfold bind, exec.
      now destruct (processMessage react t type data w) as [[v | e] w1]. }
    rewrite Hsnd.
    now destruct (processMessage_state t type data w) as [-> | [-> | [c [call [Hc ->]]]]].
  - intros w Hw. apply P_menu with w; trivial.
    rewrite processPortMessage_run.
    destruct (String.eqb type "EVENT_STATE_CHANGED"); trivial.
    now destruct (lookup t (tabControllers w)).
  - intros w Hw. unfold onModeChanged, bind at 1, get.
    destruct (lookup t (tabControllers w)) as [c |]; [| exact Hw].
    unfold bind, modify.
    match goal with
    | |- context [processControlleModeChange _ ?c' t ?w0] =>
        pose proof (@invariant_processControlleModeChange c' t w0) as Hk;
        destruct (processControlleModeChange isInactiveMode c' t w0) as [[[] | e] w1]
    end; simpl in *; apply Hk; now apply P_menu with w.
Qed.

Lemma invariant_reachable w :
  (forall currentTab, P (initialize currentTab)) ->
  reachable isActiveMode isInactiveMode react initialMode noSong w -> P w.
Proof.
  intros Hinit. induction 1 as [currentTab | w op _ IH].
  - apply Hinit.
  - now apply invariant_perform.
Qed.

End MenuInvariant.

(** X24. In every reachable state the context menu is the menu of one
    tab: all its items were made for the same tab, and there are at most
    three of them. *)
Theorem reachable_menuOfOneTab w :
  reachable isActiveMode isInactiveMode react initialMode noSong w ->
  menuOfOneTab w.
Proof.
  apply invariant_reachable.
  - intros w1 w2 Hmenu. unfold menuOfOneTab. now rewrite Hmenu.
  - intros t w0.
    destruct (updateContextMenu_frame t w0) as [r [m Hrun]].
    unfold menuOfOneTab. rewrite updateContextMenu_run.
    destruct (activeTabId w0 =? t);
      [| destruct (lookup (activeTabId w0) (tabControllers w0)) as [a |]];
      destruct (lookup t (tabControllers w0)) as [c |];
      simpl;
      try destruct (isEnabled c);
      try destruct (String.eqb (id (connector a)) (id (connector c)));
      simpl; (split; [exists t; repeat constructor | lia]).
  - intros w0. split; [exists 0; constructor | simpl; lia].
  - intros currentTab. split; [exists 0; constructor | simpl; lia].
Qed.

End Properties.

(** * The properties on the sample instance *)


Lemma sameConnectorTwice_wellFormed : wellFormed (tabControllers sameConnectorTwice).
Proof.
  split.
  - simpl. repeat constructor; simpl; intuition discriminate.
  - simpl. intros k c [[= <- <-] | [[= <- <-] | []]]; reflexivity.
Qed.

(** The state after [songEndsInBackground]. *)
Lemma songEndsInBackground_state :
  let w := playerPerformAll songEndsInBackground (initialize (Some 2)) in
  currentTabId w = 2 /\
  activeTabId w = 1 /\
  lookup 1 (tabControllers w) =
  Some {| tabId := 1; connector := youtube; isEnabled := true;
          mode := Base; currentSong := "" |}.
Proof.
  repeat split.
Qed.



Lemma playerOpened_reachable : playerReachable playerOpened.
Proof.
  apply reachable_performAll. constructor.
Qed.

Lemma playerOpened_controller :
  activeTabId playerOpened = 1 /\
  lookup 1 (tabControllers playerOpened) =
  Some {| tabId := 1; connector := youtube; isEnabled := true;
          mode := Base; currentSong := "" |}.
Proof.
  split; reflexivity.
Qed.

(** C2, at the failing input.  In the reachable state where tab 1 is the
    active tab and has a controller, [processCommand('toggle-connector')]
    throws a [TypeError]. *)
Theorem processCommand_toggle_connector_throws :
  playerReachable playerOpened /\
  result (processCommand playerReact "toggle-connector") playerOpened =
  Throw (TypeError "this.setControllerState is not a function").
Proof.
  split; [exact playerOpened_reachable |].
  unfold result. rewrite processCommand_toggle_connector; [reflexivity |].
  left. destruct playerOpened_controller as [-> ->]. discriminate.
Qed.

(** C3, at the failing input.  In the same state,
    [processCommand('toggle-connector')] leaves the controller of the
    active tab enabled as it was and stores no option: the state does not
    change.  [setConnectorState], the method of the menu items, called
    for the same controller disables it and stores the option. *)
Theorem processCommand_toggle_connector_no_effect :
  let w' := exec (processCommand playerReact "toggle-connector") playerOpened in
  let menu := exec (setConnectorState playerReact 1 youtube false) playerOpened in
  option_map (@isEnabled _ _) (lookup 1 (tabControllers playerOpened)) = Some true /\
  w' = playerOpened /\
  option_map (@isEnabled _ _) (lookup 1 (tabControllers w')) = Some true /\
  ~ In (OptionsSetConnectorEnabled youtube false) (effects w') /\
  option_map (@isEnabled _ _) (lookup 1 (tabControllers menu)) = Some false /\
  effects menu = effects playerOpened ++ [OptionsSetConnectorEnabled youtube false].
Proof.
  unfold exec. rewrite processCommand_toggle_connector.
  - rewrite setConnectorState_run.
    repeat split.
    vm_compute. intuition discriminate.
  - left. destruct playerOpened_controller as [-> ->]. discriminate.
Qed.

(** The other way into a [TypeError]: a connector matches in tab 1 while
    the active tab has no controller, and [updateContextMenu] hands
    [undefined] to [addToggleConnectorMenu].  The controller is stored,
    but the tab is never told that the worker is ready. *)
Lemma tryToInjectConnector_first_match_throws :
  let run :=
    tryToInjectConnector playerIsActive playerIsInactive playerInitialMode ""
      1 youtube MATCHED true (initialize (Some 2)) in
  fst run = Throw (TypeError "Cannot read property 'getConnector' of undefined") /\
  lookup 1 (tabControllers (snd run)) <> None /\
  ~ In (TabsSendMessage 1 "EVENT_READY") (effects (snd run)).
Proof.
  split; [reflexivity |]. split.
  - vm_compute. discriminate.
  - vm_compute. intuition discriminate.
Qed.

(** On the sample states: one connector gives one toggle item, two
    connectors give two. *)
Lemma updateContextMenu_toggle_items :
  map (fun item => titleLabel (itemTitle item))
    (filter isToggleItem (contextMenu (exec (updateContextMenu 3) sameConnectorTwice))) =
  ["YouTube"] /\
  map (fun item => titleLabel (itemTitle item))
    (filter isToggleItem (contextMenu (exec (updateContextMenu 3) differentConnectors))) =
  ["WFMU"; "YouTube"].
Proof.
  split; reflexivity.
Qed.

Lemma processTabRemove_reelects_witness :
  let w' := exec (processTabRemove playerIsActive 1) sameConnectorTwice in
  lookup 1 (tabControllers w') = None /\ activeTabId w' = 3.
Proof.
  destruct (@processTabRemove_reelects _ playerIsActive _ sameConnectorTwice 1
              sameConnectorTwice_wellFormed)
    as [_ [_ [Hnone [_ Hactive]]]].
  split; [exact Hnone |].
  destruct (Hactive eq_refl) as [Hfind _].
  rewrite Hfind. reflexivity.
Defined.

Lemma processTabChange_keeps_playing_tab_witness :
  let w' := exec (processTabChange playerIsActive playerIsInactive 5) playingInBackground in
  currentTabId w' = 5 /\ activeTabId w' = 1 /\
  contextMenu w' =
    [{| itemTab := 5;
        itemTitle := {| titleId := "menuDisableConnector"; titleLabel := "YouTube" |};
        itemAction := ToggleConnector 1 youtube false |}].
Proof.
  destruct (@processTabChange_keeps_playing_tab _ playerIsActive playerIsInactive _
              playingInBackground 1 5 (playerOn 1 youtube Playing))
    as [_ [_ [Hcur [Hact [_ [Hmenu _]]]]]];
    try reflexivity; try discriminate.
  repeat split; assumption.
Defined.

Lemma findActiveTabId_single_active_witness :
  findActiveTabId playerIsActive (setCurrentTabId 3 sameConnectorTwice) = 1 /\
  findActiveTabId playerIsActive (setCurrentTabId 7 sameConnectorTwice) = 1.
Proof.
  assert (Huniq : forall t' c',
            lookup t' (tabControllers sameConnectorTwice) = Some c' ->
            playerIsActive (mode c') = true -> t' = 1).
  { intros t' c'. unfold sameConnectorTwice. cbn [tabControllers lookup].
    destruct (1 =? t') eqn:E1.
    - intros _ _. apply Z.eqb_eq in E1. now symmetry.
    - destruct (3 =? t'); [| discriminate].
      intros [= <-]. discriminate. }
  split.
  - apply (@findActiveTabId_single_active _ playerIsActive _ sameConnectorTwice 1
             (playerOn 1 youtube Playing) sameConnectorTwice_wellFormed
             eq_refl eq_refl Huniq 3).
  - apply (@findActiveTabId_single_active _ playerIsActive _ sameConnectorTwice 1
             (playerOn 1 youtube Playing) sameConnectorTwice_wellFormed
             eq_refl eq_refl Huniq 7).
Defined.

Lemma updateContextMenu_same_connector_witness :
  List.length (filter isToggleItem
    (contextMenu (exec (updateContextMenu 3) sameConnectorTwice))) = 1%nat.
Proof.
  apply (@updateContextMenu_same_connector _ _ sameConnectorTwice 3
           (playerOn 3 youtube Base) (playerOn 1 youtube Playing));
    try reflexivity; discriminate.
Defined.


Lemma processMessage_toggle_love_echo_witness :
  result (processMessage playerReact 1 "REQUEST_TOGGLE_LOVE" [("isLoved", Bool false)])
    playingInBackground = Normal (Bool false).
Proof.
  apply (@processMessage_toggle_love_echo _ _ playerReact 1 [("isLoved", Bool false)]
           playingInBackground (playerOn 1 youtube Playing)).
  reflexivity.
Defined.

(** * The further properties on the sample instance *)

Lemma processCommand_love_witness :
  processCommand playerReact "love-song" playingInBackground =
  (Normal tt,
   addEffect (BrowserActionSetSongLoved PlayerMode true "song") playingInBackground).
Proof.
  apply (@processCommand_love _ _ playerReact "love-song" playingInBackground 1
           (playerOn 1 youtube Playing)).
  - left. reflexivity.
  - left. split; reflexivity.
Defined.

Lemma processMessage_missing_controller_witness :
  processMessage playerReact 7 "REQUEST_GET_SONG" [] playingInBackground =
  (Normal Undefined, addEffect (ConsoleWarn "REQUEST_GET_SONG" 7) playingInBackground).
Proof.
  apply (@processMessage_missing_controller _ _ playerReact 7 "REQUEST_GET_SONG" []
           playingInBackground).
  - discriminate.
  - reflexivity.
Defined.

Lemma processTabRemove_other_tab_witness :
  contextMenu (exec (processTabRemove playerIsActive 3) sameConnectorTwice) =
  contextMenu sameConnectorTwice /\
  activeTabId (exec (processTabRemove playerIsActive 3) sameConnectorTwice) = 1.
Proof.
  apply (@processTabRemove_other_tab _ playerIsActive _ 3 sameConnectorTwice).
  discriminate.
Defined.

Lemma findActiveTabId_has_controller_witness :
  exists c,
    lookup (findActiveTabId playerIsActive sameConnectorTwice)
      (tabControllers sameConnectorTwice) = Some c /\
    (playerIsActive (mode c) = true \/
     findActiveTabId playerIsActive sameConnectorTwice = currentTabId sameConnectorTwice).
Proof.
  apply (@findActiveTabId_has_controller _ playerIsActive _ sameConnectorTwice
           sameConnectorTwice_wellFormed).
  discriminate.
Defined.


Lemma perform_keeps_tabs_witness :
  map fst (tabControllers
             (exec (perform playerIsActive playerIsInactive playerReact playerInitialMode ""
                      (TabChange 5)) playingInBackground)) = [1].
Proof.
  apply (@perform_keeps_tabs _ playerIsActive playerIsInactive _ playerReact
           playerInitialMode "" (TabChange 5) playingInBackground).
  reflexivity.
Defined.

Lemma perform_keeps_currentTab_witness :
  currentTabId
    (exec (perform playerIsActive playerIsInactive playerReact playerInitialMode ""
             (TabRemove 1)) playingInBackground) = 2.
Proof.
  apply (@perform_keeps_currentTab _ playerIsActive playerIsInactive _ playerReact
           playerInitialMode "" (TabRemove 1) playingInBackground).
  reflexivity.
Defined.




Lemma reachable_menuOfOneTab_witness : menuOfOneTab playerOpened.
Proof.
  apply (reachable_menuOfOneTab playerOpened_reachable).
Defined.
